(** * data_diff/format.py: conversion of a diff result into the JSON document

    A shallow embedding of [src/data_diff/format.py] and the properties of
    its row classifier ([_group_rows]), its two row reshapers
    ([_jsonify_diff], [_jsonify_exclusive]), its column projector
    ([_jsonify_columns_diff]) and the assembler ([jsonify]).

    Python dictionaries keep insertion order and the reshapers iterate over
    them, so a dictionary is an association list with unique keys in
    insertion order.  Exceptions are an explicit result type. *)

From Stdlib Require Import String Ascii List Bool ZArith Lia Permutation.
Import ListNotations.
Open Scope string_scope.
Open Scope list_scope.

(** ** Python values, exceptions *)

Module Py.

(** The values a diff row or a stats mapping can hold. *)
#[local] Set Warnings "-register-all".
Inductive value : Type :=
| VNone
| VBool (b : bool)
| VInt (z : Z)
| VStr (s : string)
| VDict (d : list (string * value)).

(** Python truthiness, [bool(v)]. *)
Definition truthy (v : value) : bool :=
  match v with
  | VNone => false
  | VBool b => b
  | VInt z => negb (Z.eqb z 0)
  | VStr s => negb (String.eqb s "")
  | VDict d => match d with [] => false | _ :: _ => true end
  end.

Inductive exn : Type :=
| KeyError (key : string)
| TypeError.

Inductive result (A : Type) : Type :=
| Ok (a : A)
| Raise (e : exn).
Arguments Ok {A} a.
Arguments Raise {A} e.

Definition bind {A B : Type} (m : result A) (f : A -> result B) : result B :=
  match m with
  | Ok a => f a
  | Raise e => Raise e
  end.

(** [for x in l: acc = body(acc, x)], stopping at the first exception. *)
Fixpoint for_each {A S : Type} (body : S -> A -> result S) (l : list A) (acc : S)
  : result S :=
  match l with
  | [] => Ok acc
  | x :: l' => bind (body acc x) (for_each body l')
  end.

(** [[f(x) for x in l]], stopping at the first exception. *)
Fixpoint map_result {A B : Type} (f : A -> result B) (l : list A) : result (list B) :=
  match l with
  | [] => Ok []
  | x :: l' => bind (f x) (fun y => bind (map_result f l') (fun ys => Ok (y :: ys)))
  end.

(** *** Strings *)

(** [s.startswith(p)]. *)
Fixpoint startswith (p s : string) : bool :=
  match p, s with
  | EmptyString, _ => true
  | String a p', String b s' => Ascii.eqb a b && startswith p' s'
  | String _ _, EmptyString => false
  end.

Fixpoint drop (n : nat) (s : string) : string :=
  match n, s with
  | O, _ => s
  | S n', String _ s' => drop n' s'
  | S _, EmptyString => EmptyString
  end.

(** [s.endswith(p)]. *)
Definition endswith (p s : string) : bool :=
  Nat.leb (String.length p) (String.length s)
  && String.eqb (drop (String.length s - String.length p) s) p.

(** [p in s] for strings. *)
Fixpoint contains (p s : string) : bool :=
  startswith p s
  || match s with
     | EmptyString => false
     | String _ s' => contains p s'
     end.

(** The scan of [s.replace(old, new)] for a non-empty [old]: left to right,
    every occurrence that does not overlap the previous one is replaced.
    [skip] counts the characters of a matched occurrence still to be
    passed over. *)
Fixpoint replace_from (old new : string) (skip : nat) (s : string) : string :=
  match s with
  | EmptyString => EmptyString
  | String c s' =>
      match skip with
      | S k => replace_from old new k s'
      | O =>
          if startswith old s
          then new ++ replace_from old new (String.length old - 1) s'
          else String c (replace_from old new 0 s')
      end
  end.

(** [s.replace(old, new)]; the source only calls it with the non-empty
    literals ['_a'], ['_b'] and ['is_diff_']. *)
Definition replace (old new s : string) : string := replace_from old new 0 s.

(** *** Dictionaries *)

Definition dict (V : Type) : Type := list (string * V).

(** [d.get(k)], [None] when the key is absent. *)
Fixpoint dict_get {V : Type} (k : string) (d : dict V) : option V :=
  match d with
  | [] => None
  | (k', v) :: d' => if String.eqb k k' then Some v else dict_get k d'
  end.

(** [d[k] = v]: an existing key keeps its position, a new key goes last. *)
Fixpoint dict_set {V : Type} (k : string) (v : V) (d : dict V) : dict V :=
  match d with
  | [] => [(k, v)]
  | (k', v') :: d' =>
      if String.eqb k k' then (k', v) :: d' else (k', v') :: dict_set k v d'
  end.

(** [d[k]], raising [KeyError] when the key is absent. *)
Definition getitem {V : Type} (k : string) (d : dict V) : result V :=
  match dict_get k d with
  | Some v => Ok v
  | None => Raise (KeyError k)
  end.

(** [d.get(k, default)]. *)
Definition get_default {V : Type} (k : string) (default : V) (d : dict V) : V :=
  match dict_get k d with
  | Some v => v
  | None => default
  end.

(** [dict(pairs)]. *)
Definition dict_of {V : Type} (pairs : list (string * V)) : dict V :=
  fold_left (fun d kv => dict_set (fst kv) (snd kv) d) pairs [].

(** [k in keys] for a list of strings. *)
Definition mem (k : string) (keys : list string) : bool :=
  existsb (String.eqb k) keys.

(** [bool(l)] for a list. *)
Definition nonempty {A : Type} (l : list A) : bool :=
  match l with
  | [] => false
  | _ :: _ => true
  end.

End Py.

Import Py.

Declare Scope py_scope.
Notation "x <- m ;; k" := (bind m (fun x => k))
  (at level 61, m at next level, right associativity) : py_scope.
Open Scope py_scope.

Example replace_suffix_plain : replace "_a" "" "name_a" = "name".
Proof. reflexivity. Qed.

Example endswith_a : endswith "_a" "name_a" = true /\ endswith "_a" "name_b" = false.
Proof. split; reflexivity. Qed.

(** ** The dataclasses of format.py *)

(** Value of a single column in a row. *)
Record JsonExclusiveRowValue : Type := {
  ex_isPK : bool;
  ex_value : value
}.

(** Pair of diffed values for 2 rows with equal PKs. *)
Record JsonDiffRowValue : Type := {
  table1 : value;
  table2 : value;
  isDiff : bool;
  isPK : bool
}.

Record Total : Type := { total_table1 : Z; total_table2 : Z }.

Record ExclusiveRows : Type := { exrows_table1 : Z; exrows_table2 : Z }.

Record Rows : Type := {
  rows_total : Total;
  rows_exclusive : ExclusiveRows;
  updated : Z;
  unchanged : Z
}.

Record Stats : Type := { diffCounts : dict Z }.

Record JsonDiffSummary : Type := { summary_rows : Rows; summary_stats : Stats }.

Record ExclusiveColumns : Type := {
  excols_table1 : list string;
  excols_table2 : list string
}.

Record JsonColumnsSummary : Type := {
  columns_exclusive : ExclusiveColumns;
  typeChanged : list string
}.

Record ExclusiveDiff : Type := {
  exdiff_table1 : list (dict JsonExclusiveRowValue);
  exdiff_table2 : list (dict JsonExclusiveRowValue)
}.

Record RowsDiff : Type := {
  exclusive : ExclusiveDiff;
  diff : list (dict JsonDiffRowValue)
}.

Record JsonDiff : Type := {
  status : string;
  model : string;
  doc_table1 : list string;
  doc_table2 : list string;
  rows : RowsDiff;
  summary : option JsonDiffSummary;
  columns : option JsonColumnsSummary;
  version : string
}.

(** The dataclass constructors called with keyword arguments taken from a
    dictionary (the double-star call): a keyword that is no field, a field
    without a value, or a value of the wrong type for a [bool] field, is a
    [TypeError]. *)

Definition kwarg (k : string) (data : dict value) : result value :=
  match dict_get k data with
  | Some v => Ok v
  | None => Raise TypeError
  end.

Definition kwarg_bool (k : string) (data : dict value) : result bool :=
  match dict_get k data with
  | Some (VBool b) => Ok b
  | _ => Raise TypeError
  end.

Definition only_kwargs (allowed : list string) (data : dict value) : result unit :=
  if forallb (fun kv => mem (fst kv) allowed) data then Ok tt else Raise TypeError.

Definition JsonDiffRowValue_kw (data : dict value) : result JsonDiffRowValue :=
  _ <- only_kwargs ["table1"; "table2"; "isDiff"; "isPK"] data ;;
  t1 <- kwarg "table1" data ;;
  t2 <- kwarg "table2" data ;;
  d <- kwarg_bool "isDiff" data ;;
  pk <- kwarg_bool "isPK" data ;;
  Ok {| table1 := t1; table2 := t2; isDiff := d; isPK := pk |}.

Definition JsonExclusiveRowValue_kw (data : dict value) : result JsonExclusiveRowValue :=
  _ <- only_kwargs ["isPK"; "value"] data ;;
  pk <- kwarg_bool "isPK" data ;;
  v <- kwarg "value" data ;;
  Ok {| ex_isPK := pk; ex_value := v |}.

(** ** The diff engine's result, as [jsonify] reads it

    [data_diff.diff_tables] is imported, not defined, by format.py: the
    record holds the attributes the module reads. *)

Record TableSegment : Type := {
  key_columns : list string;
  table_path : list string
}.

Record SegmentInfo : Type := {
  tables : TableSegment * TableSegment;
  diff_schema : list (string * string);
  info_diff : list (list value)
}.

Record DiffResultWrapper : Type := {
  info : SegmentInfo;          (* diff.info_tree.info *)
  get_stats_dict : dict value  (* the mapping diff.get_stats_dict() returns *)
}.

(** ** The functions of format.py *)

(** [columns[column_name][key] = v] on a [defaultdict(dict)]: reading
    [columns[column_name]] creates the empty entry when it is missing. *)
Definition set_sub (column_name key : string) (v : value) (columns : dict (dict value))
  : dict (dict value) :=
  dict_set column_name (dict_set key v (get_default column_name [] columns)) columns.

Definition is_flag (field : string) : bool :=
  mem field ["is_exclusive_a"; "is_exclusive_b"].

(** Lines 165-185. *)
Definition _group_rows_body (schema : list string)
    (acc : list (dict value) * list (dict value) * list (dict value))
    (row : list value)
  : result (list (dict value) * list (dict value) * list (dict value)) :=
  let '(t1_exclusive_rows, t2_exclusive_rows, diff_rows) := acc in
  let row_w_schema := dict_of (combine schema row) in
  is_t1_exclusive <- getitem "is_exclusive_a" row_w_schema ;;
  is_t2_exclusive <- getitem "is_exclusive_b" row_w_schema ;;
  if truthy is_t1_exclusive then
    Ok (t1_exclusive_rows ++ [row_w_schema], t2_exclusive_rows, diff_rows)
  else if truthy is_t2_exclusive then
    Ok (t1_exclusive_rows, t2_exclusive_rows ++ [row_w_schema], diff_rows)
  else
    Ok (t1_exclusive_rows, t2_exclusive_rows, diff_rows ++ [row_w_schema]).

Definition _group_rows (diff_info : SegmentInfo) (schema : list string)
  : result (list (dict value) * list (dict value) * list (dict value)) :=
  for_each (_group_rows_body schema) (info_diff diff_info) ([], [], []).

(** Lines 188-211. *)
Definition _jsonify_diff_body (key_columns : list string)
    (columns : dict (dict value)) (item : string * value) : dict (dict value) :=
  let '(field, v) := item in
  if is_flag field then columns
  else if startswith "is_diff_" field then
    let column_name := replace "is_diff_" "" field in
    set_sub column_name "isDiff" (VBool (truthy v)) columns
  else if endswith "_a" field then
    let column_name := replace "_a" "" field in
    set_sub column_name "isPK" (VBool (mem column_name key_columns))
      (set_sub column_name "table1" v columns)
  else if endswith "_b" field then
    let column_name := replace "_b" "" field in
    set_sub column_name "isPK" (VBool (mem column_name key_columns))
      (set_sub column_name "table2" v columns)
  else columns.

(** The dict comprehension over [columns.items()] that calls the dataclass
    constructor on every [data]; the keys of [columns] are unique, so the
    comprehension keeps every entry, in order. *)
Definition build {A : Type} (ctor : dict value -> result A) (columns : dict (dict value))
  : result (dict A) :=
  map_result (fun cd => x <- ctor (snd cd) ;; Ok (fst cd, x)) columns.

Definition _jsonify_diff (row : dict value) (key_columns : list string)
  : result (dict JsonDiffRowValue) :=
  let columns := fold_left (_jsonify_diff_body key_columns) row [] in
  build JsonDiffRowValue_kw columns.

(** Lines 214-232.  [row['is_exclusive_b']] is only read for a field that
    ends in ['_b'], [row['is_exclusive_a']] only for one that ends in
    ['_a'] and was not taken by the first branch. *)
Definition _jsonify_exclusive_body (row : dict value) (key_columns : list string)
    (columns : dict (dict value)) (item : string * value)
  : result (dict (dict value)) :=
  let '(field, v) := item in
  if is_flag field then Ok columns
  else if startswith "is_diff_" field then Ok columns
  else
    let project (suffix : string) :=
      let column_name := replace suffix "" field in
      set_sub column_name "value" v
        (set_sub column_name "isPK" (VBool (mem column_name key_columns)) columns) in
    take_b <- (if endswith "_b" field
               then (f <- getitem "is_exclusive_b" row ;; Ok (truthy f))
               else Ok false) ;;
    if take_b then Ok (project "_b")
    else
      take_a <- (if endswith "_a" field
                 then (f <- getitem "is_exclusive_a" row ;; Ok (truthy f))
                 else Ok false) ;;
      if take_a then Ok (project "_a") else Ok columns.

Definition _jsonify_exclusive (row : dict value) (key_columns : list string)
  : result (dict JsonExclusiveRowValue) :=
  columns <- for_each (_jsonify_exclusive_body row key_columns) row [] ;;
  build JsonExclusiveRowValue_kw columns.

(** Type checks of the summary dataclasses: an [int] field and the
    [Dict[str, int]] field. *)
Definition as_int (v : value) : result Z :=
  match v with
  | VInt z => Ok z
  | _ => Raise TypeError
  end.

Definition as_int_dict (v : value) : result (dict Z) :=
  match v with
  | VDict d => map_result (fun kv => z <- as_int (snd kv) ;; Ok (fst kv, z)) d
  | _ => Raise TypeError
  end.

(** [v[k]] for a value that has to be a mapping. *)
Definition subscript (k : string) (v : value) : result value :=
  match v with
  | VDict d => getitem k d
  | _ => Raise TypeError
  end.

(** Lines 235-252. *)
Definition _jsonify_diff_summary (stats_dict : dict value) : result JsonDiffSummary :=
  rows_A <- getitem "rows_A" stats_dict ;;
  rows_B <- getitem "rows_B" stats_dict ;;
  t1 <- as_int rows_A ;;
  t2 <- as_int rows_B ;;
  exclusive_A <- getitem "exclusive_A" stats_dict ;;
  exclusive_B <- getitem "exclusive_B" stats_dict ;;
  e1 <- as_int exclusive_A ;;
  e2 <- as_int exclusive_B ;;
  upd <- getitem "updated" stats_dict ;;
  unch <- getitem "unchanged" stats_dict ;;
  u <- as_int upd ;;
  n <- as_int unch ;;
  stats <- getitem "stats" stats_dict ;;
  diff_counts <- subscript "diff_counts" stats ;;
  counts <- as_int_dict diff_counts ;;
  Ok {| summary_rows :=
          {| rows_total := {| total_table1 := t1; total_table2 := t2 |};
             rows_exclusive := {| exrows_table1 := e1; exrows_table2 := e2 |};
             updated := u;
             unchanged := n |};
        summary_stats := {| diffCounts := counts |} |}.

(** Lines 255-262. *)
Definition _jsonify_columns_diff (columns_diff : dict (list string)) : JsonColumnsSummary :=
  {| columns_exclusive :=
       {| excols_table1 := get_default "removed" [] columns_diff;
          excols_table2 := get_default "added" [] columns_diff |};
     typeChanged := get_default "changed" [] columns_diff |}.

(** [bool(d)] for the optional mapping [with_columns]: [None] and the empty
    mapping are falsy. *)
Definition given (with_columns : option (dict (list string))) : option (dict (list string)) :=
  match with_columns with
  | Some (_ :: _) => with_columns
  | _ => None
  end.

(** Lines 49-58: the [or] chain stops at its first truthy operand, so the
    mapping is only subscripted when the three buckets are empty. *)
Definition is_different (t1_exclusive_rows t2_exclusive_rows diff_rows : list (dict value))
    (with_columns : option (dict (list string))) : result bool :=
  if nonempty t1_exclusive_rows then Ok true
  else if nonempty t2_exclusive_rows then Ok true
  else if nonempty diff_rows then Ok true
  else
    match given with_columns with
    | None => Ok false
    | Some cols =>
        added <- getitem "added" cols ;;
        if nonempty added then Ok true
        else
          removed <- getitem "removed" cols ;;
          if nonempty removed then Ok true
          else
            changed <- getitem "changed" cols ;;
            Ok (nonempty changed)
    end.

(** Lines 8-73.  The document is returned through the dataclass's [.json()],
    which keeps its fields; the record stands for it. *)
Definition jsonify (d : DiffResultWrapper) (dbt_model : string) (with_summary : bool)
    (with_columns : option (dict (list string))) : result JsonDiff :=
  let diff_info := info d in
  let table1 := fst (tables diff_info) in
  let table2 := snd (tables diff_info) in
  let key_columns := key_columns table1 in
  let schema := map fst (diff_schema diff_info) in
  buckets <- _group_rows diff_info schema ;;
  let '(t1_exclusive_rows, t2_exclusive_rows, diff_rows) := buckets in
  diff_rows_jsonified <- map_result (fun row => _jsonify_diff row key_columns) diff_rows ;;
  t1_exclusive_rows_jsonified <-
    map_result (fun row => _jsonify_exclusive row key_columns) t1_exclusive_rows ;;
  t2_exclusive_rows_jsonified <-
    map_result (fun row => _jsonify_exclusive row key_columns) t2_exclusive_rows ;;
  summary <- (if with_summary
              then (s <- _jsonify_diff_summary (get_stats_dict d) ;; Ok (Some s))
              else Ok None) ;;
  let columns := option_map _jsonify_columns_diff (given with_columns) in
  different <- is_different t1_exclusive_rows t2_exclusive_rows diff_rows with_columns ;;
  Ok {| status := if different then "different" else "identical";
        model := dbt_model;
        doc_table1 := table_path table1;
        doc_table2 := table_path table2;
        rows := {| exclusive := {| exdiff_table1 := t1_exclusive_rows_jsonified;
                                   exdiff_table2 := t2_exclusive_rows_jsonified |};
                   diff := diff_rows_jsonified |};
        summary := summary;
        columns := columns;
        version := "1.0.0" |}.

(** ** Concrete runs *)

Definition mk_diff (keys : list string) (schema : list string) (rws : list (list value))
  : DiffResultWrapper :=
  {| info := {| tables := ({| key_columns := keys; table_path := ["db"; "t1"] |},
                           {| key_columns := keys; table_path := ["db"; "t2"] |});
                diff_schema := map (fun f => (f, "any")) schema;
                info_diff := rws |};
     get_stats_dict := [] |}.

(** ** The row classifier *)

Section Classifier.

Variable schema : list string.

(** The dictionary the loop builds from a row, [dict(zip(schema, row))]. *)
Definition row_w_schema (row : list value) : dict value :=
  dict_of (combine schema row).

(** Truthiness of a flag of a row that carries it. *)
Definition flag (k : string) (r : dict value) : bool :=
  match dict_get k r with
  | Some v => truthy v
  | None => false
  end.

(** Both exclusivity flags are fields of the row. *)
Definition has_flags (r : dict value) : bool :=
  match dict_get "is_exclusive_a" r, dict_get "is_exclusive_b" r with
  | Some _, Some _ => true
  | _, _ => false
  end.

Definition is_t1_exclusive (r : dict value) : bool := flag "is_exclusive_a" r.

Definition is_t2_exclusive (r : dict value) : bool :=
  negb (flag "is_exclusive_a" r) && flag "is_exclusive_b" r.

Definition is_matched (r : dict value) : bool :=
  negb (flag "is_exclusive_a" r) && negb (flag "is_exclusive_b" r).

Lemma group_rows_body_ok t1 t2 d row :
  has_flags (row_w_schema row) = true ->
  _group_rows_body schema (t1, t2, d) row =
  Ok (t1 ++ filter is_t1_exclusive [row_w_schema row],
      t2 ++ filter is_t2_exclusive [row_w_schema row],
      d ++ filter is_matched [row_w_schema row]).
Proof.
  unfold _group_rows_body, has_flags, getitem, is_t1_exclusive, is_t2_exclusive,
    is_matched, flag, row_w_schema.
  cbn [filter].
  destruct (dict_get "is_exclusive_a" _) as [va|]; [|discriminate].
  destruct (dict_get "is_exclusive_b" _) as [vb|]; [|discriminate].
  intros _. cbn [bind].
  destruct (truthy va), (truthy vb); cbn; now rewrite ?app_nil_r.
Qed.

Lemma group_rows_body_raise acc row :
  has_flags (row_w_schema row) = false ->
  exists e, _group_rows_body schema acc row = Raise e.
Proof.
  destruct acc as [[t1 t2] d].
  unfold _group_rows_body, has_flags, getitem. fold (row_w_schema row).
  destruct (dict_get "is_exclusive_a" _) as [va|]; cbn [bind]; [|eauto].
  destruct (dict_get "is_exclusive_b" _) as [vb|]; cbn [bind]; [discriminate|eauto].
Qed.

Lemma group_rows_loop rws : forall t1 t2 d,
  forallb has_flags (map row_w_schema rws) = true ->
  for_each (_group_rows_body schema) rws (t1, t2, d) =
  Ok (t1 ++ filter is_t1_exclusive (map row_w_schema rws),
      t2 ++ filter is_t2_exclusive (map row_w_schema rws),
      d ++ filter is_matched (map row_w_schema rws)).
Proof.
  induction rws as [|row rws IH]; intros t1 t2 d H.
  - cbn. now rewrite !app_nil_r.
  - cbn [map forallb] in H. apply andb_true_iff in H as [Hrow Hrest].
    cbn [for_each]. rewrite (group_rows_body_ok _ _ _ _ Hrow). cbn [bind].
    rewrite (IH _ _ _ Hrest). cbn [map].
    change (row_w_schema row :: map row_w_schema rws)
      with ([row_w_schema row] ++ map row_w_schema rws).
    now rewrite !filter_app, !app_assoc.
Qed.

Lemma group_rows_loop_inv rws : forall acc res,
  for_each (_group_rows_body schema) rws acc = Ok res ->
  forallb has_flags (map row_w_schema rws) = true.
Proof.
  induction rws as [|row rws IH]; intros acc res H; [reflexivity|].
  cbn [map forallb]. cbn [for_each] in H.
  destruct (has_flags (row_w_schema row)) eqn:Hrow.
  - destruct acc as [[t1 t2] d].
    rewrite (group_rows_body_ok _ _ _ _ Hrow) in H. cbn [bind] in H.
    now rewrite (IH _ _ H).
  - destruct (group_rows_body_raise acc row Hrow) as [e He].
    rewrite He in H. discriminate.
Qed.

End Classifier.

(** The rows of a diff result, each zipped with the schema. *)
Definition wide_rows (diff_info : SegmentInfo) (schema : list string) : list (dict value) :=
  map (row_w_schema schema) (info_diff diff_info).

(** Every row of the diff result carries both exclusivity flags. *)
Definition flags_present (diff_info : SegmentInfo) (schema : list string) : bool :=
  forallb has_flags (wide_rows diff_info schema).

Lemma group_rows_filter diff_info schema :
  flags_present diff_info schema = true ->
  _group_rows diff_info schema =
  Ok (filter is_t1_exclusive (wide_rows diff_info schema),
      filter is_t2_exclusive (wide_rows diff_info schema),
      filter is_matched (wide_rows diff_info schema)).
Proof.
  intros H. unfold _group_rows. now rewrite group_rows_loop.
Qed.

Lemma group_rows_ok_flags diff_info schema res :
  _group_rows diff_info schema = Ok res -> flags_present diff_info schema = true.
Proof. apply group_rows_loop_inv. Qed.

(** The three predicates are exclusive and cover every row. *)
Lemma classes_exclusive r :
  (is_t1_exclusive r = true /\ is_t2_exclusive r = false /\ is_matched r = false)
  \/ (is_t1_exclusive r = false /\ is_t2_exclusive r = true /\ is_matched r = false)
  \/ (is_t1_exclusive r = false /\ is_t2_exclusive r = false /\ is_matched r = true).
Proof.
  unfold is_t1_exclusive, is_t2_exclusive, is_matched.
  destruct (flag "is_exclusive_a" r), (flag "is_exclusive_b" r); cbn; tauto.
Qed.

Lemma three_way_length (l : list (dict value)) :
  length (filter is_t1_exclusive l) + length (filter is_t2_exclusive l)
  + length (filter is_matched l) = length l.
Proof.
  induction l as [|r l IH]; [reflexivity|].
  cbn [filter].
  destruct (classes_exclusive r) as [(-> & -> & ->)|[(-> & -> & ->)|(-> & -> & ->)]];
    cbn [length]; lia.
Qed.

Lemma three_way_perm (l : list (dict value)) :
  Permutation (filter is_t1_exclusive l ++ filter is_t2_exclusive l ++ filter is_matched l) l.
Proof.
  induction l as [|r l IH]; [constructor|].
  cbn [filter].
  destruct (classes_exclusive r) as [(-> & -> & ->)|[(-> & -> & ->)|(-> & -> & ->)]].
  - cbn. now constructor.
  - symmetry. apply Permutation_cons_app. now symmetry.
  - symmetry. rewrite app_assoc. apply Permutation_cons_app.
    rewrite <- app_assoc. now symmetry.
Qed.

Lemma in_one_class (l : list (dict value)) r :
  In r l ->
  (In r (filter is_t1_exclusive l) /\ ~ In r (filter is_t2_exclusive l)
   /\ ~ In r (filter is_matched l))
  \/ (~ In r (filter is_t1_exclusive l) /\ In r (filter is_t2_exclusive l)
      /\ ~ In r (filter is_matched l))
  \/ (~ In r (filter is_t1_exclusive l) /\ ~ In r (filter is_t2_exclusive l)
      /\ In r (filter is_matched l)).
Proof.
  intros Hin. rewrite !filter_In.
  destruct (classes_exclusive r) as [(-> & -> & ->)|[(-> & -> & ->)|(-> & -> & ->)]];
    [left|right; left|right; right]; repeat split; auto; intros [_ H]; discriminate.
Qed.

(** A two-row diff result: a table1-only row and a row with both flags set. *)
Definition sample_schema : list string :=
  ["is_exclusive_a"; "is_exclusive_b"; "id_a"; "id_b"].

Definition sample_info : SegmentInfo :=
  info (mk_diff ["id"] sample_schema
          [[VBool false; VBool true; VNone; VInt 7];
           [VBool true; VBool true; VInt 1; VInt 2];
           [VBool false; VBool false; VInt 3; VInt 3]]).

(** C2. Partition: when every row carries both exclusivity flags, the
    classifier returns three buckets whose sizes add up to the number of
    input rows, which together are a rearrangement of the input rows, and
    every input row is in exactly one of them. *)
Theorem group_rows_partition diff_info schema :
  flags_present diff_info schema = true ->
  exists t1 t2 d,
    _group_rows diff_info schema = Ok (t1, t2, d)
    /\ length t1 + length t2 + length d = length (info_diff diff_info)
    /\ Permutation (t1 ++ t2 ++ d) (wide_rows diff_info schema)
    /\ forall r, In r (wide_rows diff_info schema) ->
         (In r t1 /\ ~ In r t2 /\ ~ In r d)
         \/ (~ In r t1 /\ In r t2 /\ ~ In r d)
         \/ (~ In r t1 /\ ~ In r t2 /\ In r d).
Proof.
  intros H. do 3 eexists. split; [apply (group_rows_filter _ _ H)|].
  split; [|split].
  - rewrite three_way_length. unfold wide_rows. apply length_map.
  - apply three_way_perm.
  - apply in_one_class.
Qed.

Lemma group_rows_partition_witness :
  exists t1 t2 d,
    _group_rows sample_info sample_schema = Ok (t1, t2, d)
    /\ length t1 + length t2 + length d = 3
    /\ Permutation (t1 ++ t2 ++ d) (wide_rows sample_info sample_schema)
    /\ forall r, In r (wide_rows sample_info sample_schema) ->
         (In r t1 /\ ~ In r t2 /\ ~ In r d)
         \/ (~ In r t1 /\ In r t2 /\ ~ In r d)
         \/ (~ In r t1 /\ ~ In r t2 /\ In r d).
Proof. apply (group_rows_partition sample_info sample_schema). reflexivity. Defined.

(** C8. Tie-break: a row whose two exclusivity flags are both truthy is put
    in the table1-exclusive bucket, and in no other. *)
Theorem both_flags_go_to_table1 diff_info schema row :
  flags_present diff_info schema = true ->
  In row (info_diff diff_info) ->
  flag "is_exclusive_a" (row_w_schema schema row) = true ->
  flag "is_exclusive_b" (row_w_schema schema row) = true ->
  exists t1 t2 d,
    _group_rows diff_info schema = Ok (t1, t2, d)
    /\ In (row_w_schema schema row) t1
    /\ ~ In (row_w_schema schema row) t2
    /\ ~ In (row_w_schema schema row) d.
Proof.
  intros H Hin Ha Hb. do 3 eexists. split; [apply (group_rows_filter _ _ H)|].
  rewrite !filter_In. unfold is_t1_exclusive, is_t2_exclusive, is_matched.
  rewrite Ha, Hb. cbn. repeat split.
  - unfold wide_rows. now apply in_map.
  - intros [_ Hf]; discriminate.
  - intros [_ Hf]; discriminate.
Qed.

Lemma both_flags_go_to_table1_witness :
  exists t1 t2 d,
    _group_rows sample_info sample_schema = Ok (t1, t2, d)
    /\ In (row_w_schema sample_schema [VBool true; VBool true; VInt 1; VInt 2]) t1
    /\ ~ In (row_w_schema sample_schema [VBool true; VBool true; VInt 1; VInt 2]) t2
    /\ ~ In (row_w_schema sample_schema [VBool true; VBool true; VInt 1; VInt 2]) d.
Proof.
  apply (both_flags_go_to_table1 sample_info sample_schema
           [VBool true; VBool true; VInt 1; VInt 2]).
  - reflexivity.
  - cbn. right. left. reflexivity.
  - reflexivity.
  - reflexivity.
Defined.

(** C10. Order: each bucket is the subsequence, in input order, of the
    input rows that satisfy the bucket's classification predicate. *)
Theorem group_rows_keeps_order diff_info schema :
  flags_present diff_info schema = true ->
  _group_rows diff_info schema =
  Ok (filter is_t1_exclusive (wide_rows diff_info schema),
      filter is_t2_exclusive (wide_rows diff_info schema),
      filter is_matched (wide_rows diff_info schema)).
Proof. apply group_rows_filter. Qed.

Lemma group_rows_keeps_order_witness :
  _group_rows sample_info sample_schema =
  Ok (filter is_t1_exclusive (wide_rows sample_info sample_schema),
      filter is_t2_exclusive (wide_rows sample_info sample_schema),
      filter is_matched (wide_rows sample_info sample_schema)).
Proof. apply (group_rows_keeps_order sample_info sample_schema). reflexivity. Defined.

(** ** The column projector *)

(** C9. The ['added'] list is reported under [exclusive.table2], the
    ['removed'] list under [exclusive.table1] and the ['changed'] list under
    [typeChanged]; a missing key gives the empty list. *)
Theorem columns_diff_mapping (columns_diff : dict (list string)) :
  excols_table2 (columns_exclusive (_jsonify_columns_diff columns_diff))
    = get_default "added" [] columns_diff
  /\ excols_table1 (columns_exclusive (_jsonify_columns_diff columns_diff))
    = get_default "removed" [] columns_diff
  /\ typeChanged (_jsonify_columns_diff columns_diff)
    = get_default "changed" [] columns_diff.
Proof. repeat split. Qed.

(** ** The assembler *)

Lemma bind_ok {A B : Type} (m : result A) (f : A -> result B) (b : B) :
  bind m f = Ok b -> exists a, m = Ok a /\ f a = Ok b.
Proof. destruct m as [a|e]; cbn; [eauto|discriminate]. Qed.

Ltac bind_inv H :=
  let a := fresh "a" in
  let Ha := fresh "H" a in
  apply bind_ok in H; destruct H as (a & Ha & H).

Lemma nonempty_true {A : Type} (l : list A) : nonempty l = true <-> l <> [].
Proof. destruct l; cbn; split; congruence. Qed.

Lemma nonempty_false {A : Type} (l : list A) : nonempty l = false <-> l = [].
Proof. destruct l; cbn; split; congruence. Qed.

(** A column-diff mapping was supplied and one of its three lists, a missing
    one counting as empty, has an element. *)
Definition columns_changed (with_columns : option (dict (list string))) : Prop :=
  exists cols,
    with_columns = Some cols
    /\ (get_default "added" [] cols <> []
        \/ get_default "removed" [] cols <> []
        \/ get_default "changed" [] cols <> []).

Lemma getitem_default {V : Type} k (d : dict V) v dflt :
  getitem k d = Ok v -> get_default k dflt d = v.
Proof.
  unfold getitem, get_default. destruct (dict_get k d); congruence.
Qed.

Lemma is_different_spec t1 t2 dr wc b :
  is_different t1 t2 dr wc = Ok b ->
  (b = true <-> (t1 <> [] \/ t2 <> [] \/ dr <> [] \/ columns_changed wc)).
Proof.
  unfold is_different.
  destruct (nonempty t1) eqn:E1.
  { intros [= <-]. apply nonempty_true in E1. tauto. }
  destruct (nonempty t2) eqn:E2.
  { intros [= <-]. apply nonempty_true in E2. tauto. }
  destruct (nonempty dr) eqn:E3.
  { intros [= <-]. apply nonempty_true in E3. tauto. }
  apply nonempty_false in E1, E2, E3. subst t1 t2 dr.
  destruct wc as [[|kv cols]|]; cbn [given].
  - intros [= <-]. split; [discriminate|].
    intros [H|[H|[H|(c & [= <-] & H)]]]; try congruence.
    cbn in H. intuition congruence.
  - set (cs := kv :: cols). intros H.
    bind_inv H. rename a into added.
    assert (Hadd := getitem_default _ _ _ [] Ha).
    destruct (nonempty added) eqn:Ea.
    { injection H as <-. apply nonempty_true in Ea. split; [intros _|reflexivity].
      right; right; right. exists cs. split; [reflexivity|]. left. congruence. }
    bind_inv H. rename a into removed.
    assert (Hrem := getitem_default _ _ _ [] Ha0).
    destruct (nonempty removed) eqn:Er.
    { injection H as <-. apply nonempty_true in Er. split; [intros _|reflexivity].
      right; right; right. exists cs. split; [reflexivity|]. right; left. congruence. }
    bind_inv H. rename a into changed.
    assert (Hch := getitem_default _ _ _ [] Ha1).
    injection H as <-.
    apply nonempty_false in Ea, Er. subst added removed.
    split.
    + intros Hc. apply nonempty_true in Hc.
      right; right; right. exists cs. split; [reflexivity|]. right; right. congruence.
    + intros [H|[H|[H|(c & [= <-] & H)]]]; try congruence.
      apply nonempty_true. destruct H as [H|[H|H]]; congruence.
  - intros [= <-]. split; [discriminate|].
    intros [H|[H|[H|(c & Hc & _)]]]; congruence.
Qed.

(** C1. Status: whenever [jsonify] returns a document, its status is
    ["different"] exactly when the table1-exclusive bucket, the
    table2-exclusive bucket or the matched bucket of the classifier is
    non-empty, or a column-diff mapping was supplied and one of its added,
    removed or changed lists is non-empty; otherwise it is ["identical"]. *)
Theorem jsonify_status d dbt_model with_summary with_columns doc :
  jsonify d dbt_model with_summary with_columns = Ok doc ->
  exists t1 t2 dr,
    _group_rows (info d) (map fst (diff_schema (info d))) = Ok (t1, t2, dr)
    /\ (status doc = "different"
        <-> (t1 <> [] \/ t2 <> [] \/ dr <> [] \/ columns_changed with_columns))
    /\ (status doc = "identical"
        <-> ~ (t1 <> [] \/ t2 <> [] \/ dr <> [] \/ columns_changed with_columns)).
Proof.
  unfold jsonify. intros H.
  bind_inv H. destruct a as [[t1 t2] dr].
  do 3 bind_inv H. bind_inv H. bind_inv H.
  injection H as <-. cbn [status].
  exists t1, t2, dr. split; [assumption|].
  match goal with Hd : is_different _ _ _ _ = Ok ?b |- _ =>
    pose proof (is_different_spec _ _ _ _ _ Hd) as Hspec; destruct b end.
  - assert (Hc : t1 <> [] \/ t2 <> [] \/ dr <> [] \/ columns_changed with_columns)
      by now apply Hspec.
    split; split.
    + intros _. exact Hc.
    + reflexivity.
    + discriminate.
    + intros Hn. now destruct Hn.
  - assert (Hn : ~ (t1 <> [] \/ t2 <> [] \/ dr <> [] \/ columns_changed with_columns)).
    { intros Hc. apply Hspec in Hc. discriminate. }
    split; split.
    + discriminate.
    + intros Hc. now destruct Hn.
    + intros _. exact Hn.
    + reflexivity.
Qed.

Definition sample_diff : DiffResultWrapper :=
  mk_diff ["id"] ["is_exclusive_a"; "is_exclusive_b"; "id_a"; "id_b"; "is_diff_id"] [].

Lemma jsonify_status_witness :
  exists doc,
    jsonify sample_diff "m" false (Some [("added", []); ("removed", ["x"]); ("changed", [])])
      = Ok doc
    /\ status doc = "different".
Proof.
  eexists. split; [reflexivity|].
  destruct (jsonify_status sample_diff "m" false
              (Some [("added", []); ("removed", ["x"]); ("changed", [])]) _ eq_refl)
    as (t1 & t2 & dr & _ & Hdiff & _).
  apply Hdiff. right; right; right.
  eexists. split; [reflexivity|]. right; left. cbn. discriminate.
Defined.

(** *** Missing keys of the column-diff mapping *)

(** C6. On a mapping that only has ['removed'], the column projector
    reads the missing lists as empty, but the status computation of the same
    call subscripts ['added'] and raises [KeyError]: no document is
    returned. *)
Theorem missing_key_raises_in_status :
  _jsonify_columns_diff [("removed", ["x"])]
    = {| columns_exclusive := {| excols_table1 := ["x"]; excols_table2 := [] |};
         typeChanged := [] |}
  /\ jsonify sample_diff "m" false (Some [("removed", ["x"])]) = Raise (KeyError "added")
  /\ jsonify sample_diff "m" false (Some [("added", []); ("changed", ["x"])])
       = Raise (KeyError "removed").
Proof. repeat split. Qed.

(** *** The matched-diff scenario *)

Definition scenario_keys : list string := ["id"].

(** The row of the scenario as the spec gives it: no [is_diff_id] field. *)
Definition scenario_diff : DiffResultWrapper :=
  mk_diff scenario_keys
    ["is_exclusive_a"; "is_exclusive_b"; "id_a"; "id_b"; "name_a"; "name_b"; "is_diff_name"]
    [[VBool false; VBool false; VInt 1; VInt 1; VStr "x"; VStr "y"; VBool true]].

(** The same row with the [is_diff_id] field the diff engine emits. *)
Definition scenario_diff_full : DiffResultWrapper :=
  mk_diff scenario_keys
    ["is_exclusive_a"; "is_exclusive_b"; "id_a"; "id_b"; "name_a"; "name_b";
     "is_diff_id"; "is_diff_name"]
    [[VBool false; VBool false; VInt 1; VInt 1; VStr "x"; VStr "y"; VBool false; VBool true]].

Definition scenario_rows_diff : list (dict JsonDiffRowValue) :=
  [[("id", {| table1 := VInt 1; table2 := VInt 1; isDiff := false; isPK := true |});
    ("name", {| table1 := VStr "x"; table2 := VStr "y"; isDiff := true; isPK := false |})]].

(** C7, as stated: without [is_diff_id] the column [id] never gets an
    [isDiff] entry, the dataclass constructor raises and the pipeline
    returns no document. *)
Lemma scenario_without_is_diff_id_raises :
  jsonify scenario_diff "m" false None = Raise TypeError
  /\ ~ (exists doc,
          jsonify scenario_diff "m" false None = Ok doc
          /\ diff (rows doc) = scenario_rows_diff
          /\ status doc = "different").
Proof.
  split; [reflexivity|].
  intros (doc & H & _). vm_compute in H. discriminate.
Qed.

(** C7, amended: with [is_diff_id] present and false, the pipeline returns
    the document of the scenario, with status ["different"]. *)
Theorem scenario_matched_diff :
  exists doc,
    jsonify scenario_diff_full "m" false None = Ok doc
    /\ diff (rows doc) = scenario_rows_diff
    /\ exdiff_table1 (exclusive (rows doc)) = []
    /\ exdiff_table2 (exclusive (rows doc)) = []
    /\ status doc = "different".
Proof. eexists. repeat split. Qed.

(** *** Decoding of field names *)

(** C3. The reshapers strip the marker with [str.replace], which removes
    every occurrence: the column of [is_active_a] comes out as [isctive],
    that of [data_about_a] as [databout], and a matched row over the column
    [data_about] is split into two incomplete columns, so that the
    constructor raises. *)
Theorem decoding_removes_inner_markers :
  replace "_a" "" "is_active_a" = "isctive"
  /\ replace "_a" "" "data_about_a" = "databout"
  /\ replace "_b" "" "is_busy_b" = "isusy"
  /\ replace "is_diff_" "" "is_diff_x_is_diff_y" = "x_y"
  /\ _jsonify_exclusive
       [("is_exclusive_a", VBool true); ("is_exclusive_b", VBool false);
        ("is_active_a", VInt 1); ("is_active_b", VNone)] ["is_active"]
     = Ok [("isctive", {| ex_isPK := false; ex_value := VInt 1 |})]
  /\ fold_left (_jsonify_diff_body [])
       [("data_about_a", VInt 1); ("data_about_b", VInt 2);
        ("is_diff_data_about", VBool true)] []
     = [("databout", [("table1", VInt 1); ("isPK", VBool false)]);
        ("data_about", [("table2", VInt 2); ("isPK", VBool false); ("isDiff", VBool true)])]
  /\ _jsonify_diff
       [("is_exclusive_a", VBool false); ("is_exclusive_b", VBool false);
        ("data_about_a", VInt 1); ("data_about_b", VInt 2);
        ("is_diff_data_about", VBool true)] []
     = Raise TypeError.
Proof. repeat split. Qed.

(** ** Dictionary lemmas *)

Section DictFacts.

Context {V : Type}.
Implicit Types (d : dict V) (k : string) (v : V).

Lemma dict_get_set_same k v d : dict_get k (dict_set k v d) = Some v.
Proof.
  induction d as [|[k' v'] d IH]; cbn.
  - now rewrite String.eqb_refl.
  - destruct (String.eqb k k') eqn:E; cbn; rewrite E; [reflexivity|exact IH].
Qed.

Lemma dict_get_set_other k k' v d :
  k' <> k -> dict_get k' (dict_set k v d) = dict_get k' d.
Proof.
  intros Hne. induction d as [|[k0 v0] d IH]; cbn.
  - apply String.eqb_neq in Hne. now rewrite Hne.
  - destruct (String.eqb k k0) eqn:E; cbn.
    + apply String.eqb_eq in E. subst k0.
      apply String.eqb_neq in Hne. now rewrite Hne.
    + now rewrite IH.
Qed.

Lemma dict_get_set k k' v d :
  dict_get k' (dict_set k v d) = if String.eqb k' k then Some v else dict_get k' d.
Proof.
  destruct (String.eqb_spec k' k) as [->|Hne].
  - apply dict_get_set_same.
  - now apply dict_get_set_other.
Qed.

Lemma dict_set_set k v v' d : dict_set k v' (dict_set k v d) = dict_set k v' d.
Proof.
  induction d as [|[k0 v0] d IH]; cbn.
  - now rewrite String.eqb_refl.
  - destruct (String.eqb k k0) eqn:E; cbn; rewrite E; [reflexivity|now rewrite IH].
Qed.

Lemma dict_set_absent k v d : dict_get k d = None -> dict_set k v d = d ++ [(k, v)].
Proof.
  induction d as [|[k0 v0] d IH]; cbn; [reflexivity|].
  destruct (String.eqb k k0); [discriminate|]. intros H. now rewrite IH.
Qed.

Lemma dict_set_keys k v d k' :
  In k' (map fst (dict_set k v d)) <-> k' = k \/ In k' (map fst d).
Proof.
  induction d as [|[k0 v0] d IH]; cbn.
  - intuition.
  - destruct (String.eqb_spec k k0) as [->|Hne]; cbn.
    + intuition.
    + rewrite IH. intuition.
Qed.

Lemma dict_set_in k v d k' v' :
  In (k', v') (dict_set k v d) -> (k' = k /\ v' = v) \/ In (k', v') d.
Proof.
  induction d as [|[k0 v0] d IH]; cbn.
  - intros [[= <- <-]|[]]. now left.
  - destruct (String.eqb_spec k k0) as [->|Hne]; cbn.
    + intros [[= <- <-]|H]; [now left|now right; right].
    + intros [H|H]; [now right; left|]. destruct (IH H); [now left|now right; right].
Qed.

Lemma dict_set_nodup k v d : NoDup (map fst d) -> NoDup (map fst (dict_set k v d)).
Proof.
  induction d as [|[k0 v0] d IH]; cbn; intros H.
  - constructor; [intros []|constructor].
  - inversion H as [|? ? Hnot Hd]; subst.
    destruct (String.eqb_spec k k0) as [->|Hne]; cbn.
    + now constructor.
    + constructor; [|now apply IH].
      rewrite dict_set_keys. intros [Heq|Hin]; [now apply Hne|now apply Hnot].
Qed.

Lemma dict_get_in k v d : dict_get k d = Some v -> In (k, v) d.
Proof.
  induction d as [|[k0 v0] d IH]; cbn; [discriminate|].
  destruct (String.eqb_spec k k0) as [->|Hne].
  - intros [= ->]. now left.
  - intros H. right. now apply IH.
Qed.

Lemma dict_in_get k v d : NoDup (map fst d) -> In (k, v) d -> dict_get k d = Some v.
Proof.
  induction d as [|[k0 v0] d IH]; cbn; [intros _ []|].
  intros H Hin. inversion H as [|? ? Hnot Hd]; subst.
  destruct Hin as [[= -> ->]|Hin].
  - now rewrite String.eqb_refl.
  - destruct (String.eqb_spec k k0) as [->|Hne]; [|now apply IH].
    exfalso. apply Hnot. change k0 with (fst (k0, v)). now apply in_map.
Qed.

Lemma dict_get_none k d : dict_get k d = None <-> ~ In k (map fst d).
Proof.
  induction d as [|[k0 v0] d IH]; cbn; [intuition|].
  destruct (String.eqb_spec k k0) as [->|Hne].
  - split; [discriminate|]. intros H. exfalso. apply H. now left.
  - rewrite IH. intuition.
Qed.

Lemma get_default_set k v d (dflt : V) : get_default k dflt (dict_set k v d) = v.
Proof. unfold get_default. now rewrite dict_get_set_same. Qed.

End DictFacts.

(** Setting a key commutes with a key-indexed map over the values. *)
Lemma dict_set_map {V W : Type} (g : string -> V -> W) k v (d : dict V) :
  dict_set k (g k v) (map (fun kv => (fst kv, g (fst kv) (snd kv))) d)
  = map (fun kv => (fst kv, g (fst kv) (snd kv))) (dict_set k v d).
Proof.
  induction d as [|[k0 v0] d IH]; cbn; [reflexivity|].
  destruct (String.eqb_spec k k0) as [->|Hne]; cbn; [reflexivity|now rewrite IH].
Qed.

Lemma dict_get_map {V W : Type} (g : string -> V -> W) k (d : dict V) :
  dict_get k (map (fun kv => (fst kv, g (fst kv) (snd kv))) d)
  = option_map (g k) (dict_get k d).
Proof.
  induction d as [|[k0 v0] d IH]; cbn; [reflexivity|].
  destruct (String.eqb_spec k k0) as [->|Hne]; cbn; [reflexivity|exact IH].
Qed.

(** Two writes to the same column, as one update of its entry. *)
Lemma set_sub_twice c k1 v1 k2 v2 (columns : dict (dict value)) :
  set_sub c k2 v2 (set_sub c k1 v1 columns)
  = dict_set c (dict_set k2 v2 (dict_set k1 v1 (get_default c [] columns))) columns.
Proof.
  unfold set_sub. now rewrite get_default_set, dict_set_set.
Qed.

(** ** The reshaper of exclusive rows *)

(** The fields of one side: not a flag, not a diff flag, ending in the
    side's suffix. *)
Definition side_field (suffix field : string) : bool :=
  negb (is_flag field) && negb (startswith "is_diff_" field) && endswith suffix field.

(** The values of one side by decoded column, the later field winning. *)
Definition side_values (suffix : string) (fields acc : dict value) : dict value :=
  fold_left (fun acc fv => dict_set (replace suffix "" (fst fv)) (snd fv) acc) fields acc.

(** The reshaped row computed from the fields of one side only. *)
Definition side_projection (suffix : string) (key_columns : list string) (row : dict value)
  : dict JsonExclusiveRowValue :=
  map (fun cv => (fst cv, {| ex_isPK := mem (fst cv) key_columns; ex_value := snd cv |}))
    (side_values suffix (filter (fun fv => side_field suffix (fst fv)) row) []).

Section Exclusive.

Variable key_columns : list string.

Definition exclusive_entry (c : string) (v : value) : dict value :=
  [("isPK", VBool (mem c key_columns)); ("value", v)].

Definition entries (acc : dict value) : dict (dict value) :=
  map (fun cv => (fst cv, exclusive_entry (fst cv) (snd cv))) acc.

Lemma two_suffixes f : endswith "_b" f = true -> endswith "_a" f = false.
Proof.
  unfold endswith. intros H. apply andb_true_iff in H as [_ H].
  apply String.eqb_eq in H. cbn [String.length] in *. rewrite H.
  apply andb_false_r.
Qed.

Lemma project_entries suffix f v acc :
  let c := replace suffix "" f in
  set_sub c "value" v (set_sub c "isPK" (VBool (mem c key_columns)) (entries acc))
  = entries (dict_set c v acc).
Proof.
  intros c. rewrite set_sub_twice. unfold entries at 2.
  rewrite <- (dict_set_map exclusive_entry). f_equal.
  unfold get_default, entries. rewrite (dict_get_map exclusive_entry).
  destruct (dict_get c acc); reflexivity.
Qed.

Variable row : dict value.
Variables va vb : value.
Hypothesis Ha : dict_get "is_exclusive_a" row = Some va.
Hypothesis Hb : dict_get "is_exclusive_b" row = Some vb.

Lemma exclusive_body_side suffix acc f v :
  (suffix = "_a" /\ truthy va = true /\ truthy vb = false)
  \/ (suffix = "_b" /\ truthy va = false /\ truthy vb = true) ->
  _jsonify_exclusive_body row key_columns (entries acc) (f, v)
  = Ok (entries (if side_field suffix f
                 then dict_set (replace suffix "" f) v acc else acc)).
Proof.
  intros Hside. unfold _jsonify_exclusive_body, side_field, getitem.
  rewrite Ha, Hb.
  destruct (is_flag f); [now destruct Hside as [(-> & _)|(-> & _)]|].
  destruct (startswith "is_diff_" f); [now destruct Hside as [(-> & _)|(-> & _)]|].
  cbn [negb andb].
  destruct (endswith "_b" f) eqn:Eb.
  - rewrite (two_suffixes _ Eb). cbn [bind].
    destruct Hside as [(-> & Hta & Htb)|(-> & Hta & Htb)]; rewrite Htb.
    + rewrite (two_suffixes _ Eb). reflexivity.
    + rewrite Eb. now rewrite project_entries.
  - cbn [bind]. destruct (endswith "_a" f) eqn:Ea; cbn [bind].
    + destruct Hside as [(-> & Hta & Htb)|(-> & Hta & Htb)]; rewrite Hta.
      * rewrite Ea. now rewrite project_entries.
      * rewrite Eb. reflexivity.
    + destruct Hside as [(-> & _)|(-> & _)]; [rewrite Ea|rewrite Eb]; reflexivity.
Qed.

Lemma exclusive_loop_side suffix fields : forall acc,
  (suffix = "_a" /\ truthy va = true /\ truthy vb = false)
  \/ (suffix = "_b" /\ truthy va = false /\ truthy vb = true) ->
  for_each (_jsonify_exclusive_body row key_columns) fields (entries acc)
  = Ok (entries (side_values suffix
                   (filter (fun fv => side_field suffix (fst fv)) fields) acc)).
Proof.
  induction fields as [|[f v] fields IH]; intros acc Hside; [reflexivity|].
  cbn [for_each filter fst].
  rewrite (exclusive_body_side suffix acc f v Hside). cbn [bind].
  rewrite (IH _ Hside).
  destruct (side_field suffix f); reflexivity.
Qed.

Lemma build_entries acc :
  build JsonExclusiveRowValue_kw (entries acc)
  = Ok (map (fun cv => (fst cv, {| ex_isPK := mem (fst cv) key_columns;
                                   ex_value := snd cv |})) acc).
Proof.
  unfold build. induction acc as [|[c v] acc IH]; [reflexivity|].
  cbn [entries map map_result fst snd]. fold (entries acc).
  rewrite IH. reflexivity.
Qed.

Lemma exclusive_side suffix :
  (suffix = "_a" /\ truthy va = true /\ truthy vb = false)
  \/ (suffix = "_b" /\ truthy va = false /\ truthy vb = true) ->
  _jsonify_exclusive row key_columns = Ok (side_projection suffix key_columns row).
Proof.
  intros Hside. unfold _jsonify_exclusive.
  change (@nil (string * dict value)) with (entries []).
  rewrite (exclusive_loop_side suffix row [] Hside). cbn [bind].
  apply build_entries.
Qed.

End Exclusive.

Lemma side_values_from suffix fields : forall acc c v,
  In (c, v) (side_values suffix fields acc) ->
  In (c, v) acc \/ exists f, In (f, v) fields /\ c = replace suffix "" f.
Proof.
  induction fields as [|[f x] fields IH]; intros acc c v H; [now left|].
  cbn [side_values fold_left fst snd] in H. apply IH in H.
  destruct H as [H|(f' & Hin & Hc)].
  - apply dict_set_in in H. destruct H as [[-> ->]|H]; [|now left].
    right. exists f. split; [now left|reflexivity].
  - right. exists f'. split; [now right|assumption].
Qed.

Lemma side_projection_from suffix keys row c x :
  In (c, x) (side_projection suffix keys row) ->
  ex_isPK x = mem c keys
  /\ exists f, In (f, ex_value x) row /\ side_field suffix f = true
               /\ c = replace suffix "" f.
Proof.
  unfold side_projection. intros H. apply in_map_iff in H.
  destruct H as ([c' v] & [= <- <-] & Hin). cbn [fst snd ex_isPK ex_value].
  split; [reflexivity|].
  apply side_values_from in Hin. destruct Hin as [[]|(f & Hf & Hc)].
  apply filter_In in Hf. destruct Hf as [Hf Hside]. now exists f.
Qed.

(** A row with both exclusivity flags set, as the classifier's tie-break
    admits it. *)
Definition tie_row : dict value :=
  [("is_exclusive_a", VBool true); ("is_exclusive_b", VBool true);
   ("id_a", VInt 1); ("id_b", VInt 2)].



(** ** The reshaper of matched rows *)

(** The assignments [columns[c][k] = v] one field makes, in order. *)
Definition writes (key_columns : list string) (item : string * value)
  : list (string * string * value) :=
  let '(field, v) := item in
  if is_flag field then []
  else if startswith "is_diff_" field then
    [(replace "is_diff_" "" field, "isDiff", VBool (truthy v))]
  else if endswith "_a" field then
    let c := replace "_a" "" field in
    [(c, "table1", v); (c, "isPK", VBool (mem c key_columns))]
  else if endswith "_b" field then
    let c := replace "_b" "" field in
    [(c, "table2", v); (c, "isPK", VBool (mem c key_columns))]
  else [].

Definition apply_writes (ws : list (string * string * value)) (columns : dict (dict value))
  : dict (dict value) :=
  fold_left (fun cols w => set_sub (fst (fst w)) (snd (fst w)) (snd w) cols) ws columns.

(** [columns[c][k]] when both keys exist. *)
Definition sub (columns : dict (dict value)) (c k : string) : option value :=
  match dict_get c columns with
  | Some data => dict_get k data
  | None => None
  end.

Lemma body_writes keys columns item :
  _jsonify_diff_body keys columns item = apply_writes (writes keys item) columns.
Proof.
  destruct item as [f v]. unfold _jsonify_diff_body, writes.
  destruct (is_flag f); [reflexivity|].
  destruct (startswith "is_diff_" f); [reflexivity|].
  destruct (endswith "_a" f); [reflexivity|].
  destruct (endswith "_b" f); reflexivity.
Qed.

Lemma apply_writes_app ws1 ws2 columns :
  apply_writes (ws1 ++ ws2) columns = apply_writes ws2 (apply_writes ws1 columns).
Proof. apply fold_left_app. Qed.

Lemma loop_writes keys row : forall columns,
  fold_left (_jsonify_diff_body keys) row columns
  = apply_writes (flat_map (writes keys) row) columns.
Proof.
  induction row as [|item row IH]; intros columns; [reflexivity|].
  cbn [fold_left flat_map]. now rewrite apply_writes_app, IH, body_writes.
Qed.

Lemma sub_set_sub c k v columns c' k' :
  sub (set_sub c k v columns) c' k'
  = if String.eqb c' c && String.eqb k' k then Some v else sub columns c' k'.
Proof.
  unfold sub, set_sub. rewrite dict_get_set.
  destruct (String.eqb_spec c' c) as [->|Hc]; cbn [andb]; [|reflexivity].
  rewrite dict_get_set. destruct (String.eqb k' k); [reflexivity|].
  unfold get_default, dict in *. destruct (dict_get c columns); reflexivity.
Qed.

Lemma sub_kept c k v columns c' k' x :
  sub columns c' k' = Some x -> exists y, sub (set_sub c k v columns) c' k' = Some y.
Proof.
  rewrite sub_set_sub. destruct (_ && _); eauto.
Qed.

Lemma apply_writes_from ws : forall columns c k v,
  sub (apply_writes ws columns) c k = Some v ->
  In (c, k, v) ws \/ sub columns c k = Some v.
Proof.
  induction ws as [|[[c0 k0] v0] ws IH]; intros columns c k v H; [now right|].
  cbn [apply_writes fold_left fst snd] in H. apply IH in H.
  destruct H as [H|H]; [left; now right|].
  rewrite sub_set_sub in H.
  destruct (String.eqb_spec c c0) as [->|Hc]; cbn [andb] in H; [|now right].
  destruct (String.eqb_spec k k0) as [->|Hk]; [|now right].
  injection H as ->. left. now left.
Qed.

Lemma apply_writes_kept ws : forall columns c k x,
  sub columns c k = Some x -> exists y, sub (apply_writes ws columns) c k = Some y.
Proof.
  induction ws as [|[[c0 k0] v0] ws IH]; intros columns c k x H; [eauto|].
  cbn [apply_writes fold_left fst snd].
  destruct (sub_kept c0 k0 v0 _ _ _ _ H) as (y & Hy). exact (IH _ _ _ _ Hy).
Qed.

Lemma apply_writes_present ws : forall columns c k v,
  In (c, k, v) ws -> exists y, sub (apply_writes ws columns) c k = Some y.
Proof.
  induction ws as [|[[c0 k0] v0] ws IH]; intros columns c k v Hin; [destruct Hin|].
  cbn [apply_writes fold_left fst snd].
  destruct Hin as [[= -> -> ->]|Hin]; [|exact (IH _ _ _ _ Hin)].
  apply (apply_writes_kept ws _ c k v).
  rewrite sub_set_sub, !String.eqb_refl. reflexivity.
Qed.

Lemma apply_writes_keys ws : forall columns c,
  In c (map fst (apply_writes ws columns))
  <-> In c (map fst columns) \/ exists k v, In (c, k, v) ws.
Proof.
  induction ws as [|[[c0 k0] v0] ws IH]; intros columns c.
  - cbn. split; [now left|]. intros [H|(k & v & [])]. exact H.
  - cbn [apply_writes fold_left fst snd]. rewrite IH. unfold set_sub.
    rewrite dict_set_keys. split.
    + intros [[->|H]|(k & v & H)].
      * right. exists k0, v0. now left.
      * now left.
      * right. exists k, v. now right.
    + intros [H|(k & v & [[= -> -> ->]|H])].
      * left. now right.
      * left. now left.
      * right. eauto.
Qed.

Lemma apply_writes_nodup ws : forall columns,
  NoDup (map fst columns) -> NoDup (map fst (apply_writes ws columns)).
Proof.
  induction ws as [|w ws IH]; intros columns H; [exact H|].
  cbn [apply_writes fold_left]. apply IH. unfold set_sub. now apply dict_set_nodup.
Qed.

(** Every inner key is one of [allowed]. *)
Definition inner_keys_in (allowed : list string) (columns : dict (dict value)) : Prop :=
  forall c data k, In (c, data) columns -> In k (map fst data) -> In k allowed.

Lemma apply_writes_inner allowed ws : forall columns,
  (forall c k v, In (c, k, v) ws -> In k allowed) ->
  inner_keys_in allowed columns ->
  inner_keys_in allowed (apply_writes ws columns).
Proof.
  induction ws as [|[[c0 k0] v0] ws IH]; intros columns Hws Hcols; [exact Hcols|].
  cbn [apply_writes fold_left fst snd]. apply IH.
  - intros c k v H. apply (Hws c k v). now right.
  - intros c data k Hin Hk. unfold set_sub in Hin. apply dict_set_in in Hin.
    destruct Hin as [[-> ->]|Hin]; [|exact (Hcols _ _ _ Hin Hk)].
    apply dict_set_keys in Hk. destruct Hk as [->|Hk].
    + apply (Hws c0 k0 v0). now left.
    + unfold get_default, dict in *.
      destruct (dict_get c0 columns) as [data|] eqn:E.
      * apply dict_get_in in E. exact (Hcols _ _ _ E Hk).
      * destruct Hk.
Qed.

(** *** Strings: suffixes *)

Lemma length_app (s t : string) :
  String.length (s ++ t) = String.length s + String.length t.
Proof. induction s as [|a s IH]; cbn; [reflexivity|now rewrite IH]. Qed.

Lemma drop_app (s t : string) : drop (String.length s) (s ++ t) = t.
Proof. induction s as [|a s IH]; cbn; [now destruct t|exact IH]. Qed.

Lemma endswith_app (p s : string) : endswith p (s ++ p) = true.
Proof.
  unfold endswith. rewrite length_app.
  replace (String.length s + String.length p - String.length p) with (String.length s) by lia.
  rewrite drop_app, String.eqb_refl, andb_true_r. apply Nat.leb_le. lia.
Qed.

Lemma endswith_other (p q s : string) :
  String.length p = String.length q -> p <> q -> endswith q (s ++ p) = false.
Proof.
  intros Hlen Hne. unfold endswith. rewrite length_app, <- Hlen.
  replace (String.length s + String.length p - String.length p) with (String.length s) by lia.
  rewrite drop_app. apply String.eqb_neq in Hne. rewrite Hne. apply andb_false_r.
Qed.

Lemma mem_in k keys : mem k keys = true <-> In k keys.
Proof.
  unfold mem. rewrite existsb_exists. split.
  - intros (x & Hin & Heq). apply String.eqb_eq in Heq. now subst.
  - intros H. exists k. split; [exact H|apply String.eqb_refl].
Qed.

(** *** The constructor and the comprehension *)

Lemma JsonDiffRowValue_kw_ok data t1 t2 d pk :
  (forall k, In k (map fst data) -> In k ["table1"; "table2"; "isDiff"; "isPK"]) ->
  dict_get "table1" data = Some t1 ->
  dict_get "table2" data = Some t2 ->
  dict_get "isDiff" data = Some (VBool d) ->
  dict_get "isPK" data = Some (VBool pk) ->
  JsonDiffRowValue_kw data
  = Ok {| table1 := t1; table2 := t2; isDiff := d; isPK := pk |}.
Proof.
  intros Hkeys H1 H2 H3 H4. unfold JsonDiffRowValue_kw, only_kwargs, kwarg, kwarg_bool.
  replace (forallb _ data) with true.
  - cbn [bind]. rewrite H1, H2, H3, H4. reflexivity.
  - symmetry. apply forallb_forall. intros [k v] Hin. cbn [fst].
    apply mem_in, Hkeys. change k with (fst (k, v)). now apply in_map.
Qed.

Lemma build_ok {A : Type} (ctor : dict value -> result A) (columns : dict (dict value)) :
  (forall c data, In (c, data) columns -> exists x, ctor data = Ok x) ->
  exists out,
    build ctor columns = Ok out
    /\ map fst out = map fst columns
    /\ forall c x, In (c, x) out -> exists data, In (c, data) columns /\ ctor data = Ok x.
Proof.
  unfold build. induction columns as [|[c data] columns IH]; intros H.
  - exists []. cbn. repeat split. intros c x [].
  - destruct (H c data (or_introl eq_refl)) as (x & Hx).
    destruct IH as (out & Hout & Hkeys & Hfrom).
    { intros c' data' Hin. apply (H c' data'). now right. }
    exists ((c, x) :: out). cbn [map_result fst snd]. rewrite Hx. cbn [bind].
    rewrite Hout. cbn [bind map fst]. split; [reflexivity|]. split; [now rewrite Hkeys|].
    intros c' x' [[= <- <-]|Hin].
    + exists data. split; [now left|exact Hx].
    + destruct (Hfrom _ _ Hin) as (data' & Hd & Hc). exists data'. split; [now right|exact Hc].
Qed.

(** *** Columns whose three field names decode to the column itself *)

Definition column_fields (c : string) : list string :=
  [(c ++ "_a")%string; (c ++ "_b")%string; ("is_diff_" ++ c)%string].

Definition exact_column (c : string) : bool :=
  negb (is_flag (c ++ "_a")%string) && negb (is_flag (c ++ "_b")%string)
  && negb (startswith "is_diff_" (c ++ "_a")%string) && negb (startswith "is_diff_" (c ++ "_b")%string)
  && String.eqb (replace "_a" "" (c ++ "_a")%string) c
  && String.eqb (replace "_b" "" (c ++ "_b")%string) c
  && String.eqb (replace "is_diff_" "" ("is_diff_" ++ c)%string) c.

Section ExactColumn.

Variable keys : list string.
Variable c : string.
Hypothesis Hexact : exact_column c = true.

Lemma exact_parts :
  is_flag (c ++ "_a")%string = false /\ is_flag (c ++ "_b")%string = false
  /\ startswith "is_diff_" (c ++ "_a")%string = false
  /\ startswith "is_diff_" (c ++ "_b")%string = false
  /\ replace "_a" "" (c ++ "_a")%string = c
  /\ replace "_b" "" (c ++ "_b")%string = c
  /\ replace "is_diff_" "" ("is_diff_" ++ c)%string = c.
Proof.
  pose proof Hexact as H. unfold exact_column in H.
  repeat rewrite andb_true_iff in H. repeat rewrite negb_true_iff in H.
  repeat rewrite String.eqb_eq in H. tauto.
Qed.

Lemma writes_a v :
  writes keys ((c ++ "_a")%string, v) = [(c, "table1", v); (c, "isPK", VBool (mem c keys))].
Proof.
  destruct exact_parts as (H1 & _ & H3 & _ & H5 & _).
  unfold writes. now rewrite H1, H3, endswith_app, H5.
Qed.

Lemma writes_b v :
  writes keys ((c ++ "_b")%string, v) = [(c, "table2", v); (c, "isPK", VBool (mem c keys))].
Proof.
  destruct exact_parts as (_ & H2 & _ & H4 & _ & H6 & _).
  unfold writes. rewrite H2, H4, endswith_app, H6.
  now rewrite (endswith_other "_b" "_a").
Qed.

Lemma writes_diff v :
  writes keys (("is_diff_" ++ c)%string, v) = [(c, "isDiff", VBool (truthy v))].
Proof.
  destruct exact_parts as (_ & _ & _ & _ & _ & _ & H7).
  unfold writes. rewrite H7. reflexivity.
Qed.

End ExactColumn.

Lemma writes_flag keys f v : is_flag f = true -> writes keys (f, v) = [].
Proof. intros H. unfold writes. now rewrite H. Qed.

(** *** A matched row that covers a set of columns *)

(** The row is a dictionary; apart from exclusivity flags its fields are
    the three fields of each column of [cs], all present. *)
Definition covers (row : dict value) (cs : list string) : Prop :=
  NoDup (map fst row)
  /\ (forall f, In f (map fst row) ->
        is_flag f = true \/ exists c, In c cs /\ In f (column_fields c))
  /\ (forall c f, In c cs -> In f (column_fields c) -> In f (map fst row)).

Definition diff_fields : list string := ["table1"; "table2"; "isDiff"; "isPK"].

Section MatchedRow.

Variable keys : list string.
Variable row : dict value.
Variable cs : list string.
Hypothesis Hexact : forall c, In c cs -> exact_column c = true.
Hypothesis Hcovers : covers row cs.

Let W := flat_map (writes keys) row.
Let cols := apply_writes W [].

Lemma row_writes c k v :
  In (c, k, v) W ->
  In c cs
  /\ ((k = "table1" /\ In ((c ++ "_a")%string, v) row)
      \/ (k = "table2" /\ In ((c ++ "_b")%string, v) row)
      \/ (k = "isDiff"
          /\ exists v', In (("is_diff_" ++ c)%string, v') row /\ v = VBool (truthy v'))
      \/ (k = "isPK" /\ v = VBool (mem c keys))).
Proof.
  destruct Hcovers as (_ & Hfields & _).
  unfold W. intros H. apply in_flat_map in H. destruct H as ([f v'] & Hrow & Hw).
  assert (Hf : In f (map fst row)) by (change f with (fst (f, v')); now apply in_map).
  destruct (Hfields f Hf) as [Hflag|(c' & Hc' & Hin)].
  - rewrite (writes_flag _ _ _ Hflag) in Hw. destruct Hw.
  - specialize (Hexact c' Hc').
    destruct Hin as [<-|[<-|[<-|[]]]].
    + rewrite (writes_a keys c' Hexact) in Hw.
      destruct Hw as [[= <- <- <-]|[[= <- <- <-]|[]]]; split; auto 6.
    + rewrite (writes_b keys c' Hexact) in Hw.
      destruct Hw as [[= <- <- <-]|[[= <- <- <-]|[]]]; split; auto 6.
    + rewrite (writes_diff keys c' Hexact) in Hw.
      destruct Hw as [[= <- <- <-]|[]]. split; [assumption|].
      right; right; left. split; [reflexivity|]. now exists v'.
Qed.

Lemma row_present c :
  In c cs ->
  exists va vb vd,
    In ((c ++ "_a")%string, va) row /\ In ((c ++ "_b")%string, vb) row
    /\ In (("is_diff_" ++ c)%string, vd) row.
Proof.
  destruct Hcovers as (_ & _ & Hcover). intros Hc.
  assert (Hfield : forall f, In f (column_fields c) -> exists v, In (f, v) row).
  { intros f Hf. specialize (Hcover c f Hc Hf). apply in_map_iff in Hcover.
    destruct Hcover as ([f' v] & <- & Hin). now exists v. }
  destruct (Hfield (c ++ "_a")%string) as (va & Ha); [now left|].
  destruct (Hfield (c ++ "_b")%string) as (vb & Hb); [right; now left|].
  destruct (Hfield ("is_diff_" ++ c)%string) as (vd & Hd); [right; right; now left|].
  now exists va, vb, vd.
Qed.

Lemma row_in_writes c :
  In c cs ->
  exists va vb vd,
    In (c, "table1", va) W /\ In (c, "table2", vb) W
    /\ In (c, "isDiff", VBool (truthy vd)) W
    /\ In (c, "isPK", VBool (mem c keys)) W.
Proof.
  intros Hc. destruct (row_present c Hc) as (va & vb & vd & Ha & Hb & Hd).
  specialize (Hexact c Hc).
  exists va, vb, vd. unfold W. rewrite !in_flat_map. repeat split.
  - eexists. split; [exact Ha|]. rewrite (writes_a keys c Hexact). now left.
  - eexists. split; [exact Hb|]. rewrite (writes_b keys c Hexact). now left.
  - eexists. split; [exact Hd|]. rewrite (writes_diff keys c Hexact). now left.
  - eexists. split; [exact Ha|]. rewrite (writes_a keys c Hexact). right; now left.
Qed.

Lemma cols_nodup : NoDup (map fst cols).
Proof. apply apply_writes_nodup. constructor. Qed.

Lemma cols_keys c : In c (map fst cols) <-> In c cs.
Proof.
  unfold cols. rewrite apply_writes_keys. split.
  - intros [[]|(k & v & H)]. now apply row_writes in H.
  - intros Hc. right. destruct (row_in_writes c Hc) as (va & _ & _ & Ha & _). eauto.
Qed.

Lemma sub_found c k :
  In c cs -> In k diff_fields ->
  exists v, sub cols c k = Some v /\ In (c, k, v) W.
Proof.
  intros Hc Hk.
  destruct (row_in_writes c Hc) as (va & vb & vd & H1 & H2 & H3 & H4).
  assert (Hw : exists v0, In (c, k, v0) W).
  { destruct Hk as [<-|[<-|[<-|[<-|[]]]]]; eauto. }
  destruct Hw as (v0 & Hv0).
  destruct (apply_writes_present W [] c k v0 Hv0) as (y & Hy). fold cols in Hy.
  exists y. split; [exact Hy|].
  unfold cols in Hy. apply apply_writes_from in Hy. destruct Hy as [Hy|Hy]; [exact Hy|].
  discriminate.
Qed.

Lemma column_data c data :
  In (c, data) cols ->
  exists t1 t2 vd,
    JsonDiffRowValue_kw data
    = Ok {| table1 := t1; table2 := t2; isDiff := truthy vd; isPK := mem c keys |}
    /\ dict_get (c ++ "_a")%string row = Some t1
    /\ dict_get (c ++ "_b")%string row = Some t2
    /\ dict_get ("is_diff_" ++ c)%string row = Some vd.
Proof.
  intros Hin.
  assert (Hc : In c cs).
  { apply cols_keys. change c with (fst (c, data)). now apply in_map. }
  assert (Hget : dict_get c cols = Some data) by (apply dict_in_get; [apply cols_nodup|exact Hin]).
  assert (Hsub : forall k, sub cols c k = dict_get k data).
  { intros k. unfold sub. now rewrite Hget. }
  destruct Hcovers as (Hnodup & _ & _).
  destruct (sub_found c "table1" Hc) as (t1 & Ht1 & Hw1); [now left|].
  destruct (sub_found c "table2" Hc) as (t2 & Ht2 & Hw2); [right; now left|].
  destruct (sub_found c "isDiff" Hc) as (d & Hd & Hw3); [right; right; now left|].
  destruct (sub_found c "isPK" Hc) as (pk & Hpk & Hw4); [right; right; right; now left|].
  apply row_writes in Hw1, Hw2, Hw3, Hw4.
  destruct Hw1 as (_ & [(_ & Hr1)|[(? & _)|[(? & _)|(? & _)]]]); try discriminate.
  destruct Hw2 as (_ & [(? & _)|[(_ & Hr2)|[(? & _)|(? & _)]]]); try discriminate.
  destruct Hw3 as (_ & [(? & _)|[(? & _)|[(_ & vd & Hr3 & ->)|(? & _)]]]); try discriminate.
  destruct Hw4 as (_ & [(? & _)|[(? & _)|[(? & _)|(_ & ->)]]]); try discriminate.
  rewrite Hsub in Ht1, Ht2, Hd, Hpk.
  exists t1, t2, vd. split; [|repeat split; now apply dict_in_get].
  apply JsonDiffRowValue_kw_ok; try assumption.
  intros k Hk.
  assert (Hinner : inner_keys_in diff_fields cols).
  { unfold cols. apply apply_writes_inner.
    - intros c' k' v' Hw. apply row_writes in Hw.
      destruct Hw as (_ & [(-> & _)|[(-> & _)|[(-> & _)|(-> & _)]]]); cbn; auto.
    - intros ? ? ? []. }
  exact (Hinner c data k Hin Hk).
Qed.

Lemma jsonify_diff_covering :
  exists out,
    _jsonify_diff row keys = Ok out
    /\ NoDup (map fst out)
    /\ (forall c, In c (map fst out) <-> In c cs)
    /\ forall c x, In (c, x) out ->
         dict_get (c ++ "_a")%string row = Some (table1 x)
         /\ dict_get (c ++ "_b")%string row = Some (table2 x)
         /\ (exists vd, dict_get ("is_diff_" ++ c)%string row = Some vd
                        /\ isDiff x = truthy vd)
         /\ isPK x = mem c keys.
Proof.
  unfold _jsonify_diff. rewrite loop_writes. fold W. fold cols.
  destruct (build_ok JsonDiffRowValue_kw cols) as (out & Hout & Hkeys & Hfrom).
  { intros c data Hin. destruct (column_data c data Hin) as (t1 & t2 & vd & H & _). eauto. }
  exists out. split; [exact Hout|]. rewrite Hkeys.
  split; [apply cols_nodup|]. split; [apply cols_keys|].
  intros c x Hin. destruct (Hfrom c x Hin) as (data & Hd & Hx).
  destruct (column_data c data Hd) as (t1 & t2 & vd & H & H1 & H2 & H3).
  rewrite H in Hx. injection Hx as <-. cbn. eauto 6.
Qed.

End MatchedRow.

(** *** Plain column names decode exactly *)

(** A column name without the markers ['_a'], ['_b'] and ['is_diff_'], and
    which is not one of the two names that collide with a flag or with the
    diff prefix. *)
Definition plain_column (c : string) : bool :=
  negb (contains "_a" c) && negb (contains "_b" c) && negb (contains "is_diff_" c)
  && negb (String.eqb c "is_diff") && negb (String.eqb c "is_exclusive").

Lemma contains_cons p a s :
  contains p (String a s) = false ->
  startswith p (String a s) = false /\ contains p s = false.
Proof. cbn [contains]. apply orb_false_iff. Qed.

Lemma replace_keep old new s :
  contains old s = false -> replace old new s = s.
Proof.
  unfold replace. induction s as [|a s IH]; intros H; [reflexivity|].
  apply contains_cons in H as [Hs Hc]. cbn [replace_from]. rewrite Hs.
  now rewrite IH.
Qed.

Lemma replace_strip2 (u w : ascii) c :
  u <> w ->
  contains (String u (String w "")) c = false ->
  replace (String u (String w "")) "" (c ++ String u (String w "")) = c.
Proof.
  intros Huw. unfold replace. induction c as [|x c IH]; intros H.
  - cbn. now rewrite !Ascii.eqb_refl.
  - apply contains_cons in H as [Hs Hc].
    change ((String x c ++ String u (String w ""))%string)
      with (String x (c ++ String u (String w ""))).
    cbn [replace_from].
    replace (startswith (String u (String w "")) (String x (c ++ String u (String w ""))))
      with false; [now rewrite IH|].
    symmetry. cbn [startswith] in Hs |- *.
    destruct (Ascii.eqb u x); [cbn [andb] in *|reflexivity].
    destruct c as [|y c]; cbn [append startswith] in *.
    + apply Ascii.eqb_neq in Huw. rewrite Ascii.eqb_sym, Huw. reflexivity.
    + exact Hs.
Qed.

Lemma startswith_app p : forall c t,
  startswith p (c ++ t) = true ->
  startswith p c = true
  \/ exists q, p = (c ++ q)%string /\ q <> ""%string /\ startswith q t = true.
Proof.
  induction p as [|a p IH]; intros c t H; [now left|].
  destruct c as [|x c].
  - right. exists (String a p). repeat split; [discriminate|exact H].
  - cbn [append startswith] in H |- *. apply andb_true_iff in H as [Hax H].
    rewrite Hax. cbn [andb]. apply Ascii.eqb_eq in Hax. subst x.
    destruct (IH _ _ H) as [Hl|(q & -> & Hq & Hs)]; [now left|].
    right. exists q. now repeat split.
Qed.

Lemma startswith_contains p s : startswith p s = true -> contains p s = true.
Proof. intros H. destruct s; cbn [contains]; now rewrite H. Qed.

Lemma app_inj_r (t : string) : forall c c', (c ++ t)%string = (c' ++ t)%string -> c = c'.
Proof.
  induction c as [|x c IH]; intros [|y c'] H; cbn [append] in H.
  - reflexivity.
  - exfalso. apply (f_equal String.length) in H. cbn [String.length] in H.
    rewrite length_app in H. lia.
  - exfalso. apply (f_equal String.length) in H. cbn [String.length] in H.
    rewrite length_app in H. lia.
  - injection H as -> H. now rewrite (IH _ H).
Qed.

(** A non-empty prefix of a two-character suffix. *)
Lemma short_prefix q (u w : ascii) :
  q <> ""%string -> startswith q (String u (String w "")) = true ->
  q = String u "" \/ q = String u (String w "").
Proof.
  intros Hq H. destruct q as [|a q]; [contradiction|].
  cbn [startswith] in H. apply andb_true_iff in H as [Ha H].
  apply Ascii.eqb_eq in Ha. subst a.
  destruct q as [|b q]; [now left|].
  cbn [startswith] in H. apply andb_true_iff in H as [Hb H].
  apply Ascii.eqb_eq in Hb. subst b.
  destruct q; [now right|discriminate].
Qed.

Lemma no_diff_prefix c (w : ascii) :
  contains "is_diff_" c = false -> c <> "is_diff"%string ->
  endswith (String "_" (String w "")) "is_diff_" = false ->
  startswith "is_diff_" (c ++ String "_" (String w "")) = false.
Proof.
  intros Hc Hne Hend.
  destruct (startswith "is_diff_" (c ++ String "_" (String w ""))) eqn:E; [|reflexivity].
  exfalso. apply startswith_app in E. destruct E as [E|(q & Hp & Hq & Hs)].
  - apply startswith_contains in E. congruence.
  - destruct (short_prefix q _ _ Hq Hs) as [->| ->].
    + apply Hne. apply (app_inj_r "_"). now rewrite <- Hp.
    + rewrite Hp, endswith_app in Hend. discriminate.
Qed.

Lemma no_flag c (w : ascii) :
  c <> "is_exclusive"%string ->
  (w = "a" \/ w = "b")%char ->
  is_flag (c ++ String "_" (String w "")) = false.
Proof.
  intros Hne Hw. unfold is_flag, mem. cbn [existsb]. rewrite orb_false_r.
  apply orb_false_iff. split; apply String.eqb_neq; intros H.
  - destruct Hw as [-> | ->].
    + apply Hne. now apply (app_inj_r "_a").
    + pose proof (endswith_app "_b" c) as He. rewrite H in He. discriminate.
  - destruct Hw as [-> | ->].
    + pose proof (endswith_app "_a" c) as He. rewrite H in He. discriminate.
    + apply Hne. now apply (app_inj_r "_b").
Qed.

Lemma plain_exact c : plain_column c = true -> exact_column c = true.
Proof.
  unfold plain_column. rewrite !andb_true_iff, !negb_true_iff.
  intros [[[[Ha Hb] Hd] Hn1] Hn2].
  apply String.eqb_neq in Hn1, Hn2.
  unfold exact_column.
  rewrite (no_flag c "a" Hn2), (no_flag c "b" Hn2) by auto.
  rewrite (no_diff_prefix c "a" Hd Hn1), (no_diff_prefix c "b" Hd Hn1) by reflexivity.
  rewrite (replace_strip2 "_" "a" c), (replace_strip2 "_" "b" c) by (discriminate || assumption).
  replace (replace "is_diff_" "" ("is_diff_" ++ c)) with (replace "is_diff_" "" c)
    by reflexivity.
  rewrite (replace_keep _ _ _ Hd), !String.eqb_refl. reflexivity.
Qed.

(** A matched row over the columns [id] and [created_at]. *)
Definition created_at_row : dict value :=
  [("is_exclusive_a", VBool false); ("is_exclusive_b", VBool false);
   ("id_a", VInt 1); ("id_b", VInt 1); ("is_diff_id", VBool false);
   ("created_at_a", VInt 5); ("created_at_b", VInt 6); ("is_diff_created_at", VBool true)].

(** A matched row over the columns [id] and [is_diff]. *)
Definition is_diff_row : dict value :=
  [("is_exclusive_a", VBool false); ("is_exclusive_b", VBool false);
   ("id_a", VInt 1); ("id_b", VInt 1); ("is_diff_id", VBool false);
   ("is_diff_a", VInt 5); ("is_diff_b", VInt 6); ("is_diff_is_diff", VBool true)].

Ltac covers_concrete :=
  unfold covers; split; [|split];
  [ repeat constructor; cbn; intuition discriminate
  | cbn; intros f Hf;
    repeat (destruct Hf as [<-|Hf];
            [first [left; reflexivity
                   | right; eexists; split; [left; reflexivity|cbn; tauto]
                   | right; eexists; split; [right; left; reflexivity|cbn; tauto]]|]);
    destruct Hf
  | intros c f Hc Hf; cbn in Hc, Hf;
    repeat (destruct Hc as [<-|Hc]; [|]); try destruct Hc;
    repeat (destruct Hf as [<-|Hf]; [cbn; tauto|]); destruct Hf ].

(** C5, as stated: both rows carry all three fields of each of their two
    columns, and the reshaper raises on both.  For [created_at] the inner
    ['_a'] is removed with the suffix; for [is_diff] the field [is_diff_a]
    is read as the diff flag of a column [a]. *)
Lemma covered_rows_that_raise :
  (covers created_at_row ["id"; "created_at"]
   /\ _jsonify_diff created_at_row ["id"] = Raise TypeError)
  /\ (covers is_diff_row ["id"; "is_diff"]
      /\ _jsonify_diff is_diff_row ["id"] = Raise TypeError).
Proof.
  split; (split; [covers_concrete|reflexivity]).
Qed.

(** C5, amended: for a matched row whose fields cover the columns [A] and
    [B], with the three fields of each, where the names [A] and [B] contain
    none of ['_a'], ['_b'], ['is_diff_'] and are neither [is_diff] nor
    [is_exclusive], the reshaper returns a mapping whose keys are exactly
    [A] and [B]; each is mapped to a value whose [table1], [table2] and
    [isDiff] come from the column's [_a], [_b] and [is_diff_] fields and
    whose [isPK] tells whether the column is a key column. *)
Theorem matched_row_complete keys row A B :
  plain_column A = true ->
  plain_column B = true ->
  covers row [A; B] ->
  exists out,
    _jsonify_diff row keys = Ok out
    /\ NoDup (map fst out)
    /\ (forall c, In c (map fst out) <-> c = A \/ c = B)
    /\ forall c, c = A \/ c = B ->
         exists x vd,
           dict_get c out = Some x
           /\ dict_get (c ++ "_a")%string row = Some (table1 x)
           /\ dict_get (c ++ "_b")%string row = Some (table2 x)
           /\ dict_get ("is_diff_" ++ c)%string row = Some vd
           /\ isDiff x = truthy vd
           /\ isPK x = mem c keys.
Proof.
  intros HA HB Hcov.
  destruct (jsonify_diff_covering keys row [A; B]) as (out & Hout & Hnd & Hkeys & Hvals).
  - intros c [<-|[<-|[]]]; now apply plain_exact.
  - exact Hcov.
  - exists out. split; [exact Hout|]. split; [exact Hnd|].
    assert (Hk : forall c, In c (map fst out) <-> c = A \/ c = B).
    { intros c. rewrite Hkeys. cbn. intuition. }
    split; [exact Hk|].
    intros c Hc. apply Hk in Hc. apply in_map_iff in Hc.
    destruct Hc as ([c' x] & <- & Hin). cbn [fst].
    destruct (Hvals _ _ Hin) as (H1 & H2 & (vd & H3 & H4) & H5).
    exists x, vd. split; [now apply dict_in_get|]. auto.
Qed.

Definition id_name_row : dict value :=
  [("is_exclusive_a", VBool false); ("is_exclusive_b", VBool false);
   ("is_diff_id", VBool false); ("is_diff_name", VBool true);
   ("id_a", VInt 1); ("id_b", VInt 1); ("name_a", VStr "x"); ("name_b", VStr "y")].

Lemma matched_row_complete_witness :
  exists out,
    _jsonify_diff id_name_row ["id"] = Ok out
    /\ forall c, In c (map fst out) <-> c = "id"%string \/ c = "name"%string.
Proof.
  destruct (matched_row_complete ["id"] id_name_row "id" "name")
    as (out & Hout & _ & Hkeys & _).
  - reflexivity.
  - reflexivity.
  - covers_concrete.
  - exists out. split; [exact Hout|exact Hkeys].
Defined.

(** ** When the assembler returns *)

Lemma map_result_total {A B : Type} (f : A -> result B) (l : list A) :
  (forall x, In x l -> exists y, f x = Ok y) -> exists ys, map_result f l = Ok ys.
Proof.
  induction l as [|x l IH]; intros H; [now exists []|].
  destruct (H x (or_introl eq_refl)) as (y & Hy).
  destruct IH as (ys & Hys); [intros x' Hx'; apply H; now right|].
  exists (y :: ys). cbn [map_result]. now rewrite Hy, Hys.
Qed.

Section ExclusiveTotal.

Variable key_columns : list string.
Variable row : dict value.
Hypothesis Hflags : has_flags row = true.

Lemma exclusive_body_total acc item :
  exists acc',
    _jsonify_exclusive_body row key_columns (entries key_columns acc) item
    = Ok (entries key_columns acc').
Proof.
  destruct item as [f v]. unfold has_flags in Hflags.
  unfold _jsonify_exclusive_body, getitem.
  destruct (dict_get "is_exclusive_a" row) as [va|]; [|discriminate].
  destruct (dict_get "is_exclusive_b" row) as [vb|]; [|discriminate].
  destruct (is_flag f); [eauto|].
  destruct (startswith "is_diff_" f); [eauto|].
  destruct (endswith "_b" f), (endswith "_a" f);
    cbn [bind]; cbv beta iota zeta; cbn [bind];
    rewrite ?(project_entries key_columns "_a"), ?(project_entries key_columns "_b");
    destruct (truthy va), (truthy vb); eauto.
Qed.

Lemma exclusive_loop_total fields : forall acc,
  exists acc',
    for_each (_jsonify_exclusive_body row key_columns) fields (entries key_columns acc)
    = Ok (entries key_columns acc').
Proof.
  induction fields as [|item fields IH]; intros acc; [now exists acc|].
  cbn [for_each]. destruct (exclusive_body_total acc item) as (acc1 & ->).
  cbn [bind]. apply IH.
Qed.

Lemma jsonify_exclusive_total : exists out, _jsonify_exclusive row key_columns = Ok out.
Proof.
  unfold _jsonify_exclusive.
  change (@nil (string * dict value)) with (entries key_columns []).
  destruct (exclusive_loop_total row []) as (acc & ->). cbn [bind].
  rewrite build_entries. eauto.
Qed.

End ExclusiveTotal.

(** The status computation returns when a bucket is non-empty, when no
    column-diff mapping is given, or when the mapping has its three keys. *)
Lemma is_different_total t1 t2 dr with_columns :
  (t1 <> [] \/ t2 <> [] \/ dr <> [] \/ given with_columns = None
   \/ exists cols a r c,
        with_columns = Some cols /\ dict_get "added" cols = Some a
        /\ dict_get "removed" cols = Some r /\ dict_get "changed" cols = Some c) ->
  exists b, is_different t1 t2 dr with_columns = Ok b.
Proof.
  unfold is_different. intros H.
  destruct t1; [|cbn; eauto]. destruct t2; [|cbn; eauto]. destruct dr; [|cbn; eauto].
  cbn [nonempty].
  destruct H as [H|[H|[H|[H|(cols & a & r & c & -> & Ha & Hr & Hc)]]]];
    try congruence.
  - rewrite H. eauto.
  - destruct cols as [|kv cols]; [discriminate|]. cbn [given].
    unfold getitem. rewrite Ha, Hr, Hc. cbn [bind].
    destruct (nonempty a); [eauto|]. destruct (nonempty r); eauto.
Qed.

(** [jsonify] returns a document when every row carries both flags, every
    matched row can be reshaped, the stats mapping (when asked for) is well
    formed and the status computation returns. *)
Lemma jsonify_returns d dbt_model with_summary with_columns :
  let schema := map fst (diff_schema (info d)) in
  let keys := key_columns (fst (tables (info d))) in
  flags_present (info d) schema = true ->
  (forall r, In r (filter is_matched (wide_rows (info d) schema)) ->
             exists out, _jsonify_diff r keys = Ok out) ->
  (with_summary = false \/ exists s, _jsonify_diff_summary (get_stats_dict d) = Ok s) ->
  (exists b, is_different (filter is_t1_exclusive (wide_rows (info d) schema))
               (filter is_t2_exclusive (wide_rows (info d) schema))
               (filter is_matched (wide_rows (info d) schema)) with_columns = Ok b) ->
  exists doc, jsonify d dbt_model with_summary with_columns = Ok doc.
Proof.
  intros schema keys Hflags Hdiff Hsum (b & Hb). unfold jsonify.
  fold schema. fold keys. rewrite (group_rows_filter _ _ Hflags). cbn [bind].
  assert (Hex : forall p r, In r (filter p (wide_rows (info d) schema)) ->
                            exists out, _jsonify_exclusive r keys = Ok out).
  { intros p r Hin. apply filter_In in Hin as [Hin _].
    apply jsonify_exclusive_total.
    unfold flags_present in Hflags. rewrite forallb_forall in Hflags. now apply Hflags. }
  destruct (map_result_total (fun row => _jsonify_diff row keys) _ Hdiff) as (dj & ->).
  destruct (map_result_total (fun row => _jsonify_exclusive row keys) _ (Hex is_t1_exclusive))
    as (j1 & ->).
  destruct (map_result_total (fun row => _jsonify_exclusive row keys) _ (Hex is_t2_exclusive))
    as (j2 & ->).
  cbn [bind]. rewrite Hb.
  destruct Hsum as [->|(s & Hs)]; [cbn [bind]; eauto|].
  destruct with_summary; [rewrite Hs|]; cbn [bind]; eauto.
Qed.

(** ** Exclusive rows: the row's own side *)





(** * Further properties of format.py *)

(** ** The assembled document *)

Lemma map_result_forall2 {A B : Type} (f : A -> result B) (l : list A) : forall ys,
  map_result f l = Ok ys -> Forall2 (fun x y => f x = Ok y) l ys.
Proof.
  induction l as [|x l IH]; intros ys H.
  - injection H as <-. constructor.
  - cbn [map_result] in H. bind_inv H. bind_inv H. injection H as <-.
    constructor; [assumption|now apply IH].
Qed.

Lemma jsonify_inv d dbt_model with_summary with_columns doc :
  jsonify d dbt_model with_summary with_columns = Ok doc ->
  let keys := key_columns (fst (tables (info d))) in
  exists t1 t2 dr dj j1 j2 s b,
    _group_rows (info d) (map fst (diff_schema (info d))) = Ok (t1, t2, dr)
    /\ map_result (fun row => _jsonify_diff row keys) dr = Ok dj
    /\ map_result (fun row => _jsonify_exclusive row keys) t1 = Ok j1
    /\ map_result (fun row => _jsonify_exclusive row keys) t2 = Ok j2
    /\ (if with_summary
        then (x <- _jsonify_diff_summary (get_stats_dict d) ;; Ok (Some x))
        else Ok None) = Ok s
    /\ is_different t1 t2 dr with_columns = Ok b
    /\ doc = {| status := if b then "different" else "identical";
                model := dbt_model;
                doc_table1 := table_path (fst (tables (info d)));
                doc_table2 := table_path (snd (tables (info d)));
                rows := {| exclusive := {| exdiff_table1 := j1; exdiff_table2 := j2 |};
                           diff := dj |};
                summary := s;
                columns := option_map _jsonify_columns_diff (given with_columns);
                version := "1.0.0" |}.
Proof.
  intros H keys. unfold jsonify in H. fold keys in H.
  bind_inv H. destruct a as [[t1 t2] dr].
  bind_inv H. bind_inv H. bind_inv H. bind_inv H. bind_inv H.
  injection H as <-.
  repeat eexists; eassumption.
Qed.

(** X1. A returned document repeats the model name and the two table
    paths it was given and always carries version 1.0.0. *)
Theorem jsonify_metadata d dbt_model with_summary with_columns doc :
  jsonify d dbt_model with_summary with_columns = Ok doc ->
  model doc = dbt_model
  /\ doc_table1 doc = table_path (fst (tables (info d)))
  /\ doc_table2 doc = table_path (snd (tables (info d)))
  /\ version doc = "1.0.0".
Proof.
  intros H. apply jsonify_inv in H.
  destruct H as (t1 & t2 & dr & dj & j1 & j2 & s & b & _ & _ & _ & _ & _ & _ & ->).
  repeat split.
Qed.

Lemma jsonify_metadata_witness :
  exists doc,
    jsonify scenario_diff_full "orders" false None = Ok doc
    /\ model doc = "orders" /\ doc_table1 doc = ["db"; "t1"]
    /\ doc_table2 doc = ["db"; "t2"] /\ version doc = "1.0.0".
Proof.
  eexists. split; [reflexivity|].
  exact (jsonify_metadata scenario_diff_full "orders" false None _ eq_refl).
Defined.

(** X2. In a returned document every input row is reshaped exactly once:
    [rows.diff], [rows.exclusive.table1] and [rows.exclusive.table2] are,
    element by element and in order, the reshaped rows of the matched,
    table1-exclusive and table2-exclusive buckets, so their sizes add up to
    the number of input rows. *)
Theorem jsonify_rows_elementwise d dbt_model with_summary with_columns doc :
  jsonify d dbt_model with_summary with_columns = Ok doc ->
  let schema := map fst (diff_schema (info d)) in
  let keys := key_columns (fst (tables (info d))) in
  Forall2 (fun r o => _jsonify_diff r keys = Ok o)
    (filter is_matched (wide_rows (info d) schema)) (diff (rows doc))
  /\ Forall2 (fun r o => _jsonify_exclusive r keys = Ok o)
       (filter is_t1_exclusive (wide_rows (info d) schema))
       (exdiff_table1 (exclusive (rows doc)))
  /\ Forall2 (fun r o => _jsonify_exclusive r keys = Ok o)
       (filter is_t2_exclusive (wide_rows (info d) schema))
       (exdiff_table2 (exclusive (rows doc)))
  /\ length (diff (rows doc)) + length (exdiff_table1 (exclusive (rows doc)))
     + length (exdiff_table2 (exclusive (rows doc))) = length (info_diff (info d)).
Proof.
  intros H schema keys. apply jsonify_inv in H.
  destruct H as (t1 & t2 & dr & dj & j1 & j2 & s & b & Hg & Hd & H1 & H2 & _ & _ & ->).
  fold schema in Hg. fold keys in Hd, H1, H2.
  pose proof (group_rows_ok_flags _ _ _ Hg) as Hflags.
  rewrite (group_rows_filter _ _ Hflags) in Hg. injection Hg as <- <- <-.
  apply map_result_forall2 in Hd, H1, H2. cbn [rows diff exclusive exdiff_table1 exdiff_table2].
  repeat split; try assumption.
  rewrite <- (Forall2_length Hd), <- (Forall2_length H1), <- (Forall2_length H2).
  pose proof (three_way_length (wide_rows (info d) schema)) as Hlen.
  unfold wide_rows in Hlen at 4. rewrite length_map in Hlen. lia.
Qed.

(** A diff result with one row of each kind. *)
Definition three_rows : DiffResultWrapper :=
  mk_diff ["id"] ["is_exclusive_a"; "is_exclusive_b"; "is_diff_id"; "id_a"; "id_b"]
    [[VBool false; VBool true; VBool false; VNone; VInt 7];
     [VBool true; VBool false; VBool false; VInt 1; VNone];
     [VBool false; VBool false; VBool false; VInt 3; VInt 3]].

Lemma jsonify_rows_elementwise_witness :
  exists doc,
    jsonify three_rows "m" false None = Ok doc
    /\ length (diff (rows doc)) + length (exdiff_table1 (exclusive (rows doc)))
       + length (exdiff_table2 (exclusive (rows doc))) = 3.
Proof.
  eexists. split; [reflexivity|].
  exact (proj2 (proj2 (proj2
    (jsonify_rows_elementwise three_rows "m" false None _ eq_refl)))).
Defined.

(** X3. The optional sections: a returned document has a summary exactly
    when [with_summary] is set, and a columns section exactly when
    [with_columns] is a non-empty mapping; the columns section is then the
    projection of that mapping. *)
Theorem jsonify_optional_sections d dbt_model with_summary with_columns doc :
  jsonify d dbt_model with_summary with_columns = Ok doc ->
  (summary doc <> None <-> with_summary = true)
  /\ (forall s, summary doc = Some s -> _jsonify_diff_summary (get_stats_dict d) = Ok s)
  /\ (columns doc <> None <-> exists cols, with_columns = Some cols /\ cols <> [])
  /\ (forall c, columns doc = Some c ->
        exists cols, with_columns = Some cols /\ c = _jsonify_columns_diff cols).
Proof.
  intros H. apply jsonify_inv in H.
  destruct H as (t1 & t2 & dr & dj & j1 & j2 & s & b & _ & _ & _ & _ & Hs & _ & ->).
  cbn [summary columns]. repeat split.
  - intros Hn. destruct with_summary; [reflexivity|]. injection Hs as <-. now destruct Hn.
  - intros ->. bind_inv Hs. injection Hs as <-. discriminate.
  - intros s' ->. destruct with_summary; [|discriminate].
    bind_inv Hs. now injection Hs as <-.
  - intros Hn. destruct with_columns as [[|kv cols]|]; cbn in Hn; try now destruct Hn.
    exists (kv :: cols). split; [reflexivity|discriminate].
  - intros (cols & -> & Hne). destruct cols; [now destruct Hne|discriminate].
  - intros c Hc. destruct with_columns as [[|kv cols]|]; cbn in Hc; try discriminate.
    injection Hc as <-. now exists (kv :: cols).
Qed.

Lemma jsonify_optional_sections_witness :
  exists doc,
    jsonify sample_diff "m" false (Some [("added", ["x"])]) = Ok doc
    /\ summary doc = None /\ columns doc <> None.
Proof.
  eexists. split; [reflexivity|].
  destruct (jsonify_optional_sections sample_diff "m" false (Some [("added", ["x"])]) _ eq_refl)
    as (_ & _ & Hc & _).
  split; [reflexivity|]. apply Hc. eexists. split; [reflexivity|discriminate].
Defined.

(** X4. No rows, no summary, no column mapping: whatever the schema, the
    key columns and the table paths are, the document is returned with
    status identical, three empty row lists and no optional section. *)
Theorem jsonify_no_rows d dbt_model :
  info_diff (info d) = [] ->
  jsonify d dbt_model false None
  = Ok {| status := "identical";
          model := dbt_model;
          doc_table1 := table_path (fst (tables (info d)));
          doc_table2 := table_path (snd (tables (info d)));
          rows := {| exclusive := {| exdiff_table1 := []; exdiff_table2 := [] |};
                     diff := [] |};
          summary := None;
          columns := None;
          version := "1.0.0" |}.
Proof.
  intros H. unfold jsonify, _group_rows. rewrite H. reflexivity.
Qed.

Lemma jsonify_no_rows_witness :
  exists doc, jsonify sample_diff "m" false None = Ok doc /\ status doc = "identical".
Proof.
  eexists. split; [exact (jsonify_no_rows sample_diff "m" eq_refl)|reflexivity].
Defined.

(** X5. An empty column mapping counts as no mapping: [jsonify] gives the
    same result for [{}] as for [None]. *)
Theorem jsonify_empty_mapping d dbt_model with_summary :
  jsonify d dbt_model with_summary (Some []) = jsonify d dbt_model with_summary None.
Proof. reflexivity. Qed.

(** ** The classifier: errors and composition *)

Lemma group_rows_body_error schema acc row e :
  _group_rows_body schema acc row = Raise e ->
  e = KeyError "is_exclusive_a" \/ e = KeyError "is_exclusive_b".
Proof.
  destruct acc as [[t1 t2] d]. unfold _group_rows_body, getitem.
  destruct (dict_get "is_exclusive_a" _) as [va|]; cbn [bind]; [|intros [= <-]; now left].
  destruct (dict_get "is_exclusive_b" _) as [vb|]; cbn [bind]; [|intros [= <-]; now right].
  destruct (truthy va); [discriminate|]. destruct (truthy vb); discriminate.
Qed.

Lemma group_rows_loop_error schema rws : forall acc e,
  for_each (_group_rows_body schema) rws acc = Raise e ->
  e = KeyError "is_exclusive_a" \/ e = KeyError "is_exclusive_b".
Proof.
  induction rws as [|row rws IH]; intros acc e H; [discriminate|].
  cbn [for_each] in H.
  destruct (_group_rows_body schema acc row) as [acc'|e'] eqn:E; cbn [bind] in H.
  - exact (IH _ _ H).
  - injection H as <-. exact (group_rows_body_error _ _ _ _ E).
Qed.

(** X6. The classifier returns exactly when every row, zipped with the
    schema, has both exclusivity flags; otherwise it raises [KeyError] on
    one of the two flag names, and nothing else. *)
Theorem group_rows_fails_fast diff_info schema :
  ((exists buckets, _group_rows diff_info schema = Ok buckets)
   <-> flags_present diff_info schema = true)
  /\ forall e, _group_rows diff_info schema = Raise e ->
       flags_present diff_info schema = false
       /\ (e = KeyError "is_exclusive_a" \/ e = KeyError "is_exclusive_b").
Proof.
  split; [split|].
  - intros (b & H). exact (group_rows_ok_flags _ _ _ H).
  - intros H. rewrite (group_rows_filter _ _ H). eauto.
  - intros e H. split; [|exact (group_rows_loop_error _ _ _ _ H)].
    destruct (flags_present diff_info schema) eqn:E; [|reflexivity].
    rewrite (group_rows_filter _ _ E) in H. discriminate.
Qed.

(** The same diff result with other rows. *)
Definition with_rows (diff_info : SegmentInfo) (rws : list (list value)) : SegmentInfo :=
  {| tables := tables diff_info; diff_schema := diff_schema diff_info; info_diff := rws |}.

(** X7. Classifying a concatenation: when two row sequences are both
    classified, their concatenation is classified into the bucket-wise
    concatenation of the two results. *)
Theorem group_rows_app diff_info schema rws1 rws2 a1 a2 a3 b1 b2 b3 :
  _group_rows (with_rows diff_info rws1) schema = Ok (a1, a2, a3) ->
  _group_rows (with_rows diff_info rws2) schema = Ok (b1, b2, b3) ->
  _group_rows (with_rows diff_info (rws1 ++ rws2)) schema
  = Ok (a1 ++ b1, a2 ++ b2, a3 ++ b3).
Proof.
  intros H1 H2.
  pose proof (group_rows_ok_flags _ _ _ H1) as F1.
  pose proof (group_rows_ok_flags _ _ _ H2) as F2.
  rewrite (group_rows_filter _ _ F1) in H1. rewrite (group_rows_filter _ _ F2) in H2.
  injection H1 as <- <- <-. injection H2 as <- <- <-.
  assert (F : flags_present (with_rows diff_info (rws1 ++ rws2)) schema = true).
  { unfold flags_present, wide_rows in *. cbn [info_diff with_rows] in *.
    now rewrite map_app, forallb_app, F1, F2. }
  rewrite (group_rows_filter _ _ F). unfold wide_rows. cbn [info_diff with_rows].
  now rewrite map_app, !filter_app.
Qed.

Lemma group_rows_app_witness :
  _group_rows (with_rows sample_info
                 ([[VBool true; VBool false; VInt 1; VNone]]
                  ++ [[VBool false; VBool true; VNone; VInt 2]])) sample_schema
  = Ok ([row_w_schema sample_schema [VBool true; VBool false; VInt 1; VNone]] ++ [],
        [] ++ [row_w_schema sample_schema [VBool false; VBool true; VNone; VInt 2]],
        [] ++ []).
Proof.
  apply (group_rows_app sample_info sample_schema); reflexivity.
Defined.

(** ** The status computation: errors *)

(** X8. The status computation can only fail with [KeyError], on one of
    the keys added, removed, changed, that key being absent from the given
    mapping, and only when all three buckets are empty: a non-empty bucket
    hides a malformed mapping. *)
Theorem is_different_error t1 t2 dr with_columns e :
  is_different t1 t2 dr with_columns = Raise e ->
  t1 = [] /\ t2 = [] /\ dr = []
  /\ exists cols k,
       with_columns = Some cols /\ cols <> []
       /\ e = KeyError k
       /\ In k ["added"; "removed"; "changed"]
       /\ dict_get k cols = None.
Proof.
  unfold is_different.
  destruct t1; [|discriminate]. destruct t2; [|discriminate]. destruct dr; [|discriminate].
  cbn [nonempty]. destruct with_columns as [[|kv cols]|]; cbn [given]; try discriminate.
  set (cs := kv :: cols). unfold getitem. intros H. repeat split.
  exists cs. 
  destruct (dict_get "added" cs) as [a|] eqn:Ea; cbn [bind] in H.
  - destruct (nonempty a); [discriminate|].
    destruct (dict_get "removed" cs) as [r|] eqn:Er; cbn [bind] in H.
    + destruct (nonempty r); [discriminate|].
      destruct (dict_get "changed" cs) as [c|] eqn:Ec; cbn [bind] in H; [discriminate|].
      injection H as <-. exists "changed". cbn. intuition discriminate.
    + injection H as <-. exists "removed". cbn. intuition discriminate.
  - injection H as <-. exists "added". cbn. intuition discriminate.
Qed.

Lemma is_different_error_witness :
  exists cols k,
    Some [("added", @nil string)] = Some cols /\ cols <> []
    /\ KeyError "removed" = KeyError k
    /\ In k ["added"; "removed"; "changed"]
    /\ dict_get k cols = None.
Proof.
  exact (proj2 (proj2 (proj2
    (is_different_error [] [] [] (Some [("added", [])]) (KeyError "removed") eq_refl)))).
Defined.

Lemma is_different_short_circuit t1 t2 dr with_columns :
  t1 <> [] \/ t2 <> [] \/ dr <> [] ->
  is_different t1 t2 dr with_columns = Ok true.
Proof.
  unfold is_different. intros [H|[H|H]].
  - destruct t1; [now destruct H|reflexivity].
  - destruct t1; [|reflexivity]. destruct t2; [now destruct H|reflexivity].
  - destruct t1; [|reflexivity]. destruct t2; [|reflexivity].
    destruct dr; [now destruct H|reflexivity].
Qed.

(** X9. Any row makes the tables different: when the diff result has at
    least one row and [jsonify] returns, the status is different, whatever
    the row's flags and diff fields are and whatever mapping is given. *)
Theorem any_row_makes_different d dbt_model with_summary with_columns doc :
  info_diff (info d) <> [] ->
  jsonify d dbt_model with_summary with_columns = Ok doc ->
  status doc = "different".
Proof.
  intros Hrows H. apply jsonify_inv in H.
  destruct H as (t1 & t2 & dr & dj & j1 & j2 & s & b & Hg & _ & _ & _ & _ & Hb & ->).
  cbn [status].
  pose proof (group_rows_ok_flags _ _ _ Hg) as Hflags.
  rewrite (group_rows_filter _ _ Hflags) in Hg. injection Hg as <- <- <-.
  rewrite is_different_short_circuit in Hb; [now injection Hb as <-|].
  pose proof (three_way_length (wide_rows (info d) (map fst (diff_schema (info d))))) as Hlen.
  unfold wide_rows in Hlen at 4. rewrite length_map in Hlen.
  destruct (info_diff (info d)) as [|r rs] eqn:E; [now destruct Hrows|].
  cbn [length] in Hlen.
  destruct (filter is_t1_exclusive _); [|left; discriminate].
  destruct (filter is_t2_exclusive _); [|right; left; discriminate].
  destruct (filter is_matched _); [cbn in Hlen; lia|right; right; discriminate].
Qed.

Lemma any_row_makes_different_witness :
  exists doc, jsonify three_rows "m" false None = Ok doc /\ status doc = "different".
Proof.
  eexists. split; [reflexivity|].
  apply (any_row_makes_different three_rows "m" false None); [discriminate|reflexivity].
Defined.

(** ** The summary projector *)

Lemma as_int_ok v z : as_int v = Ok z -> v = VInt z.
Proof. destruct v; cbn; congruence. Qed.

Lemma as_int_dict_ok v counts :
  as_int_dict v = Ok counts ->
  v = VDict (map (fun kz => (fst kz, VInt (snd kz))) counts).
Proof.
  destruct v as [| | | |d]; cbn [as_int_dict]; try discriminate.
  revert counts. induction d as [|[k x] d IH]; intros counts H.
  - injection H as <-. reflexivity.
  - cbn [map_result fst snd] in H. bind_inv H. bind_inv H.
    injection H as <-. bind_inv Ha. injection Ha as <-.
    apply as_int_ok in Ha1. subst x.
    specialize (IH _ Ha0). injection IH as ->. reflexivity.
Qed.

Lemma getitem_ok {V : Type} k (d : dict V) v : getitem k d = Ok v -> dict_get k d = Some v.
Proof. unfold getitem. destruct (dict_get k d); congruence. Qed.

Lemma getitem_error {V : Type} k (d : dict V) e :
  getitem k d = Raise e -> e = KeyError k /\ dict_get k d = None.
Proof. unfold getitem. destruct (dict_get k d); [discriminate|]. intros [= <-]. auto. Qed.

(** X10. The summary is a field-by-field copy of the stats mapping: when
    the projector returns, each count of the summary is the integer stored
    under the corresponding key, and [diffCounts] is the mapping stored
    under [stats][diff_counts], key by key in the same order. *)
Theorem summary_copies_stats stats_dict s :
  _jsonify_diff_summary stats_dict = Ok s ->
  dict_get "rows_A" stats_dict = Some (VInt (total_table1 (rows_total (summary_rows s))))
  /\ dict_get "rows_B" stats_dict = Some (VInt (total_table2 (rows_total (summary_rows s))))
  /\ dict_get "exclusive_A" stats_dict
     = Some (VInt (exrows_table1 (rows_exclusive (summary_rows s))))
  /\ dict_get "exclusive_B" stats_dict
     = Some (VInt (exrows_table2 (rows_exclusive (summary_rows s))))
  /\ dict_get "updated" stats_dict = Some (VInt (updated (summary_rows s)))
  /\ dict_get "unchanged" stats_dict = Some (VInt (unchanged (summary_rows s)))
  /\ exists stats,
       dict_get "stats" stats_dict = Some (VDict stats)
       /\ dict_get "diff_counts" stats
          = Some (VDict (map (fun kz => (fst kz, VInt (snd kz)))
                           (diffCounts (summary_stats s)))).
Proof.
  unfold _jsonify_diff_summary. intros H.
  repeat match goal with
         | H : bind _ _ = Ok _ |- _ => bind_inv H
         end.
  injection H as <-. cbn.
  repeat match goal with
         | H : as_int _ = Ok _ |- _ => apply as_int_ok in H; subst
         | H : getitem _ _ = Ok _ |- _ => apply getitem_ok in H
         | H : as_int_dict _ = Ok _ |- _ => apply as_int_dict_ok in H; subst
         end.
  repeat (split; [assumption|]).
  match goal with
  | H : subscript _ ?v = Ok _ |- _ => destruct v; try discriminate; cbn in H;
                                     apply getitem_ok in H
  end.
  eexists. split; eassumption.
Qed.

Definition sample_stats : dict value :=
  [("rows_A", VInt 10); ("rows_B", VInt 11); ("exclusive_A", VInt 1);
   ("exclusive_B", VInt 2); ("updated", VInt 3); ("unchanged", VInt 6);
   ("stats", VDict [("diff_counts", VDict [("name_a", VInt 3)])])].

Lemma summary_copies_stats_witness :
  exists s,
    _jsonify_diff_summary sample_stats = Ok s
    /\ dict_get "updated" sample_stats = Some (VInt (updated (summary_rows s))).
Proof.
  eexists. split; [reflexivity|].
  exact (proj1 (proj2 (proj2 (proj2 (proj2
    (summary_copies_stats sample_stats _ eq_refl)))))).
Defined.

(** The keys of the stats mapping whose values have to be integers. *)
Definition count_keys : list string :=
  ["rows_A"; "rows_B"; "exclusive_A"; "exclusive_B"; "updated"; "unchanged"].

(** The value is a mapping whose values are all integers. *)
Definition int_dict (v : value) : Prop :=
  exists counts, v = VDict (map (fun kz => (fst kz, VInt (snd kz))) counts).

Lemma as_int_error v e : as_int v = Raise e -> e = TypeError /\ forall z, v <> VInt z.
Proof. destruct v; cbn; intros [= <-]; split; congruence. Qed.

Lemma as_int_dict_ints counts :
  as_int_dict (VDict (map (fun kz => (fst kz, VInt (snd kz))) counts)) = Ok counts.
Proof.
  cbn [as_int_dict]. induction counts as [|[k z] counts IH]; [reflexivity|].
  cbn [map map_result fst snd as_int bind]. now rewrite IH.
Qed.

Lemma as_int_dict_error v e :
  as_int_dict v = Raise e -> e = TypeError /\ ~ int_dict v.
Proof.
  intros H. split.
  - destruct v as [| | | |d]; cbn [as_int_dict] in H; try now injection H as <-.
    revert e H. induction d as [|[k x] d IH]; intros e H; [discriminate|].
    cbn [map_result fst snd] in H.
    destruct (as_int x) as [z|e'] eqn:Ex; cbn [bind] in H.
    + destruct (map_result _ d) eqn:Em; cbn [bind] in H; [discriminate|].
      injection H as <-. now apply IH.
    + injection H as <-. now apply as_int_error in Ex.
  - intros (counts & ->). rewrite as_int_dict_ints in H. discriminate.
Qed.

(** X11. The summary projector fails only in these ways: with [KeyError]
    on a required key that the stats mapping (or, for [diff_counts], its
    [stats] entry) does not have; or with [TypeError] when the value under
    one of the six count keys is not an integer, when the [stats] entry is
    not a mapping, or when its [diff_counts] entry is not a mapping of
    integers. *)
Theorem summary_errors stats_dict e :
  _jsonify_diff_summary stats_dict = Raise e ->
  (e = TypeError
   /\ ((exists k v, In k count_keys /\ dict_get k stats_dict = Some v
                    /\ forall z, v <> VInt z)
       \/ (exists v, dict_get "stats" stats_dict = Some v /\ forall st, v <> VDict st)
       \/ (exists st v, dict_get "stats" stats_dict = Some (VDict st)
                        /\ dict_get "diff_counts" st = Some v /\ ~ int_dict v)))
  \/ (exists k,
        e = KeyError k
        /\ In k ["rows_A"; "rows_B"; "exclusive_A"; "exclusive_B"; "updated";
                 "unchanged"; "stats"]
        /\ dict_get k stats_dict = None)
  \/ (exists stats,
        e = KeyError "diff_counts"
        /\ dict_get "stats" stats_dict = Some (VDict stats)
        /\ dict_get "diff_counts" stats = None).
Proof.
  unfold _jsonify_diff_summary. intros H.
  repeat match type of H with
         | bind (getitem ?k ?d) _ = Raise _ =>
             let E := fresh "E" in
             destruct (getitem k d) eqn:E; cbn [bind] in H;
             [apply getitem_ok in E
             |injection H as <-; apply getitem_error in E; destruct E as [-> E];
              right; left; eexists; split; [reflexivity|];
              split; [cbn; tauto|exact E]]
         | bind (as_int ?v) _ = Raise _ =>
             let E := fresh "E" in
             destruct (as_int v) eqn:E; cbn [bind] in H;
             [clear E
             |injection H as <-; apply as_int_error in E; destruct E as [-> E];
              left; split; [reflexivity|]; left;
              match goal with
              | G : dict_get ?k stats_dict = Some v |- _ =>
                  exists k, v; split; [cbn; tauto|split; [exact G|exact E]]
              end]
         end.
  match goal with G : dict_get "stats" stats_dict = Some ?v |- _ => rename G into Hstats end.
  match type of H with
  | bind (subscript _ ?v) _ = Raise _ =>
      destruct v as [| | | |st]; cbn [subscript bind] in H;
      try (injection H as <-; left; split; [reflexivity|]; right; left;
           eexists; split; [exact Hstats|intros ?; discriminate])
  end.
  destruct (getitem "diff_counts" st) as [dc|] eqn:Ed; cbn [bind] in H.
  - apply getitem_ok in Ed.
    destruct (as_int_dict dc) eqn:Ea; cbn [bind] in H; [discriminate|].
    injection H as <-. apply as_int_dict_error in Ea. destruct Ea as [-> Ea].
    left. split; [reflexivity|]. right; right. exists st, dc. auto.
  - apply getitem_error in Ed. destruct Ed as [-> Ed]. injection H as <-.
    right; right. exists st. auto.
Qed.

Lemma summary_errors_witness :
  _jsonify_diff_summary [("rows_A", VInt 1); ("rows_B", VStr "many")] = Raise TypeError
  /\ exists k v, In k count_keys
                 /\ dict_get k [("rows_A", VInt 1); ("rows_B", VStr "many")] = Some v
                 /\ forall z, v <> VInt z.
Proof.
  split; [reflexivity|].
  destruct (summary_errors [("rows_A", VInt 1); ("rows_B", VStr "many")] TypeError eq_refl)
    as [(_ & [H|[(v & H & _)|(st & v & H & _)]])|[(k & H & _)|(st & H & _)]];
    try discriminate.
  exact H.
Defined.

(** ** The reshaper of exclusive rows, for any flags *)

Section ExclusiveGeneral.

Variable keys : list string.
Variable row : dict value.
Hypothesis Hflags : has_flags row = true.

(** The field [f] is projected as a field of the side [sfx]. *)
Definition projected (sfx f : string) : Prop :=
  (sfx = "_a"%string \/ sfx = "_b"%string)
  /\ endswith sfx f = true
  /\ is_flag f = false
  /\ startswith "is_diff_" f = false
  /\ flag ("is_exclusive" ++ sfx) row = true.

Lemma exclusive_body_step acc f v :
  exists acc',
    _jsonify_exclusive_body row keys (entries keys acc) (f, v) = Ok (entries keys acc')
    /\ (acc' = acc
        \/ exists sfx, projected sfx f /\ acc' = dict_set (replace sfx "" f) v acc).
Proof.
  unfold projected, flag. unfold has_flags in Hflags.
  unfold _jsonify_exclusive_body, getitem.
  destruct (dict_get "is_exclusive_a" row) as [va|] eqn:Ea; [|discriminate].
  destruct (dict_get "is_exclusive_b" row) as [vb|] eqn:Eb; [|discriminate].
  destruct (is_flag f) eqn:Ef; [eauto|].
  destruct (startswith "is_diff_" f) eqn:Ed; [eauto|].
  destruct (endswith "_b" f) eqn:Hb, (endswith "_a" f) eqn:Ha;
    cbn [bind]; cbv beta iota zeta; cbn [bind];
    rewrite ?(project_entries keys "_a"), ?(project_entries keys "_b");
    destruct (truthy va) eqn:Ta, (truthy vb) eqn:Tb;
    eexists; (split; [reflexivity|]);
    first [ now left
          | right; exists "_b"%string; cbn [append]; rewrite Eb; now auto 10
          | right; exists "_a"%string; cbn [append]; rewrite Ea; now auto 10 ].
Qed.

Lemma exclusive_loop_step fields : forall acc,
  NoDup (map fst acc) ->
  exists acc',
    for_each (_jsonify_exclusive_body row keys) fields (entries keys acc)
    = Ok (entries keys acc')
    /\ NoDup (map fst acc')
    /\ forall c v, In (c, v) acc' ->
         In (c, v) acc
         \/ exists f sfx, In (f, v) fields /\ projected sfx f /\ c = replace sfx "" f.
Proof.
  induction fields as [|[f v] fields IH]; intros acc Hnd.
  - exists acc. repeat split; auto.
  - cbn [for_each]. destruct (exclusive_body_step acc f v) as (acc1 & -> & Hstep).
    cbn [bind].
    assert (Hnd1 : NoDup (map fst acc1)).
    { destruct Hstep as [->|(sfx & _ & ->)]; [exact Hnd|now apply dict_set_nodup]. }
    destruct (IH acc1 Hnd1) as (acc' & Hloop & Hnd' & Hfrom).
    exists acc'. split; [exact Hloop|]. split; [exact Hnd'|].
    intros c x Hin. destruct (Hfrom c x Hin) as [H1|(f' & sfx & Hf & Hp & Hc)].
    + destruct Hstep as [->|(sfx & Hp & ->)]; [now left|].
      apply dict_set_in in H1. destruct H1 as [[-> ->]|H1]; [|now left].
      right. exists f, sfx. split; [now left|auto].
    + right. exists f', sfx. split; [now right|auto].
Qed.

Lemma exclusive_general :
  exists out,
    _jsonify_exclusive row keys = Ok out
    /\ NoDup (map fst out)
    /\ forall c x, In (c, x) out ->
         ex_isPK x = mem c keys
         /\ exists f sfx,
              In (f, ex_value x) row /\ projected sfx f /\ c = replace sfx "" f.
Proof.
  unfold _jsonify_exclusive.
  change (@nil (string * dict value)) with (entries keys []).
  destruct (exclusive_loop_step row []) as (acc & -> & Hnd & Hfrom); [constructor|].
  cbn [bind]. rewrite build_entries. eexists. split; [reflexivity|]. split.
  - now rewrite map_map.
  - intros c x Hin. apply in_map_iff in Hin. destruct Hin as ([c' v] & [= <- <-] & Hin).
    cbn [fst snd ex_isPK ex_value]. split; [reflexivity|].
    destruct (Hfrom _ _ Hin) as [[]|H]. exact H.
Qed.

End ExclusiveGeneral.

(** X12. On any row that has both exclusivity flags the exclusive reshaper
    returns, its columns are distinct, every [isPK] tells whether the decoded
    column is a key column, and every value is the value of a field that
    ends in ['_a'] or ['_b'], is neither a flag nor an [is_diff_] field, and
    whose own side's flag ([is_exclusive_a] resp. [is_exclusive_b]) is
    truthy. *)
Theorem exclusive_reshaper_total row keys :
  has_flags row = true ->
  exists out,
    _jsonify_exclusive row keys = Ok out
    /\ NoDup (map fst out)
    /\ forall c x, In (c, x) out ->
         ex_isPK x = mem c keys
         /\ exists f sfx,
              In (f, ex_value x) row
              /\ (sfx = "_a"%string \/ sfx = "_b"%string)
              /\ endswith sfx f = true
              /\ is_flag f = false
              /\ startswith "is_diff_" f = false
              /\ flag ("is_exclusive" ++ sfx) row = true
              /\ c = replace sfx "" f.
Proof.
  intros H. destruct (exclusive_general keys row H) as (out & Hout & Hnd & Hfrom).
  exists out. split; [exact Hout|]. split; [exact Hnd|].
  intros c x Hin. destruct (Hfrom c x Hin) as (Hpk & f & sfx & Hf & Hp & Hc).
  split; [exact Hpk|]. exists f, sfx. unfold projected in Hp. tauto.
Qed.

Lemma exclusive_reshaper_total_witness :
  exists out, _jsonify_exclusive tie_row ["id"] = Ok out /\ NoDup (map fst out).
Proof.
  destruct (exclusive_reshaper_total tie_row ["id"] eq_refl) as (out & H & Hnd & _).
  now exists out.
Defined.

(** X13. A row with both flags falsy has no side to project: the
    exclusive reshaper returns the empty mapping. *)
Theorem exclusive_of_matched_row_is_empty row keys :
  has_flags row = true ->
  is_matched row = true ->
  _jsonify_exclusive row keys = Ok [].
Proof.
  intros H Hm. destruct (exclusive_general keys row H) as (out & Hout & _ & Hfrom).
  rewrite Hout. f_equal. destruct out as [|[c x] out]; [reflexivity|]. exfalso.
  destruct (Hfrom c x (or_introl eq_refl)) as (_ & f & sfx & _ & Hp & _).
  unfold is_matched in Hm. apply andb_true_iff in Hm as [Ha Hb].
  apply negb_true_iff in Ha, Hb.
  destruct Hp as ([-> | ->] & _ & _ & _ & Hflag); cbn [append] in Hflag; congruence.
Qed.

Lemma exclusive_of_matched_row_is_empty_witness :
  _jsonify_exclusive id_name_row ["id"] = Ok [].
Proof. apply exclusive_of_matched_row_is_empty; reflexivity. Defined.

(** ** The reshaper of matched rows, for any row *)

Lemma writes_form keys f v' c k v :
  In (c, k, v) (writes keys (f, v')) ->
  is_flag f = false
  /\ ((k = "isDiff" /\ startswith "is_diff_" f = true
       /\ c = replace "is_diff_" "" f /\ v = VBool (truthy v'))
      \/ (k = "table1" /\ startswith "is_diff_" f = false /\ endswith "_a" f = true
          /\ c = replace "_a" "" f /\ v = v')
      \/ (k = "table2" /\ startswith "is_diff_" f = false /\ endswith "_b" f = true
          /\ c = replace "_b" "" f /\ v = v')
      \/ (k = "isPK" /\ v = VBool (mem c keys))).
Proof.
  unfold writes.
  destruct (is_flag f); [intros []|].
  destruct (startswith "is_diff_" f).
  { intros [[= <- <- <-]|[]]. auto 10. }
  destruct (endswith "_a" f).
  { intros [[= <- <- <-]|[[= <- <- <-]|[]]]; auto 10. }
  destruct (endswith "_b" f); [|intros []].
  intros [[= <- <- <-]|[[= <- <- <-]|[]]]; auto 10.
Qed.

Lemma ctor_inv data x :
  JsonDiffRowValue_kw data = Ok x ->
  dict_get "table1" data = Some (table1 x)
  /\ dict_get "table2" data = Some (table2 x)
  /\ dict_get "isDiff" data = Some (VBool (isDiff x))
  /\ dict_get "isPK" data = Some (VBool (isPK x)).
Proof.
  unfold JsonDiffRowValue_kw, kwarg, kwarg_bool. intros H.
  bind_inv H.
  destruct (dict_get "table1" data); [|discriminate]. cbn [bind] in H.
  destruct (dict_get "table2" data); [|discriminate]. cbn [bind] in H.
  destruct (dict_get "isDiff" data) as [[]|]; try discriminate. cbn [bind] in H.
  destruct (dict_get "isPK" data) as [[]|]; try discriminate. cbn [bind] in H.
  injection H as <-. repeat split.
Qed.

Lemma ctor_error data e : JsonDiffRowValue_kw data = Raise e -> e = TypeError.
Proof.
  unfold JsonDiffRowValue_kw, only_kwargs, kwarg, kwarg_bool.
  destruct (forallb _ data); cbn [bind]; [|congruence].
  destruct (dict_get "table1" data); cbn [bind]; [|congruence].
  destruct (dict_get "table2" data); cbn [bind]; [|congruence].
  destruct (dict_get "isDiff" data) as [[]|]; cbn [bind]; try congruence.
  destruct (dict_get "isPK" data) as [[]|]; cbn [bind]; congruence.
Qed.

Lemma ctor_missing data k :
  In k diff_fields -> dict_get k data = None -> JsonDiffRowValue_kw data = Raise TypeError.
Proof.
  intros Hk Hnone. destruct (JsonDiffRowValue_kw data) as [x|e] eqn:E.
  - apply ctor_inv in E. destruct E as (H1 & H2 & H3 & H4).
    destruct Hk as [<-|[<-|[<-|[<-|[]]]]]; congruence.
  - now rewrite (ctor_error _ _ E).
Qed.

Lemma build_inv {A : Type} (ctor : dict value -> result A) columns out :
  build ctor columns = Ok out ->
  map fst out = map fst columns
  /\ forall c x, In (c, x) out -> exists data, In (c, data) columns /\ ctor data = Ok x.
Proof.
  unfold build. revert out. induction columns as [|[c data] columns IH]; intros out H.
  - injection H as <-. split; [reflexivity|intros ? ? []].
  - cbn [map_result fst snd] in H. bind_inv H. bind_inv H. injection H as <-.
    bind_inv Ha. injection Ha as <-.
    destruct (IH _ Ha0) as (Hk & Hfrom). split; [cbn; now rewrite Hk|].
    intros c' x [[= <- <-]|Hin].
    + exists data. split; [now left|assumption].
    + destruct (Hfrom _ _ Hin) as (d' & Hd & Hc). exists d'. split; [now right|assumption].
Qed.

Lemma build_raise_diff columns c data :
  In (c, data) columns ->
  JsonDiffRowValue_kw data = Raise TypeError ->
  build JsonDiffRowValue_kw columns = Raise TypeError.
Proof.
  unfold build. induction columns as [|[c' data'] columns IH]; intros Hin Hraise; [destruct Hin|].
  cbn [map_result fst snd].
  destruct (JsonDiffRowValue_kw data') as [x|e] eqn:E; cbn [bind].
  - destruct Hin as [[= -> ->]|Hin]; [congruence|].
    now rewrite (IH Hin Hraise).
  - now rewrite (ctor_error _ _ E).
Qed.

Lemma incomplete_raises keys row c k v k' :
  In (c, k, v) (flat_map (writes keys) row) ->
  In k' diff_fields ->
  (forall v', ~ In (c, k', v') (flat_map (writes keys) row)) ->
  _jsonify_diff row keys = Raise TypeError.
Proof.
  intros Hw Hk' Hno. unfold _jsonify_diff. rewrite loop_writes.
  set (W := flat_map (writes keys) row) in *. set (cols := apply_writes W []).
  assert (Hc : In c (map fst cols)).
  { apply apply_writes_keys. right. eauto. }
  apply in_map_iff in Hc. destruct Hc as ([c' data] & <- & Hin). cbn [fst] in *.
  apply (build_raise_diff cols c' data Hin).
  apply (ctor_missing data k' Hk').
  assert (Hnd : NoDup (map fst cols)) by (apply apply_writes_nodup; constructor).
  pose proof (dict_in_get _ _ _ Hnd Hin) as Hget.
  destruct (dict_get k' data) as [y|] eqn:E; [|reflexivity]. exfalso.
  assert (Hsub : sub cols c' k' = Some y) by (unfold sub; now rewrite Hget).
  apply apply_writes_from in Hsub. destruct Hsub as [Hsub|Hsub]; [|discriminate].
  exact (Hno y Hsub).
Qed.

(** X14. Whenever the matched-row reshaper returns, its columns are
    distinct and every value is assembled from fields of the row: [table1]
    is the value of a field ending in ['_a'], [table2] of a field ending in
    ['_b'], [isDiff] the truthiness of a field starting with ['is_diff_'],
    each decoding to that column, and [isPK] tells whether the column is a
    key column. *)
Theorem jsonify_diff_sound row keys out :
  _jsonify_diff row keys = Ok out ->
  NoDup (map fst out)
  /\ forall c x, In (c, x) out ->
       isPK x = mem c keys
       /\ (exists f, In (f, table1 x) row /\ endswith "_a" f = true
                     /\ c = replace "_a" "" f)
       /\ (exists f, In (f, table2 x) row /\ endswith "_b" f = true
                     /\ c = replace "_b" "" f)
       /\ (exists f v, In (f, v) row /\ startswith "is_diff_" f = true
                       /\ c = replace "is_diff_" "" f /\ isDiff x = truthy v).
Proof.
  unfold _jsonify_diff. rewrite loop_writes.
  set (W := flat_map (writes keys) row). set (cols := apply_writes W []).
  intros H. apply build_inv in H. destruct H as (Hkeys & Hfrom).
  assert (Hnd : NoDup (map fst cols)) by (apply apply_writes_nodup; constructor).
  split; [now rewrite Hkeys|].
  intros c x Hin. destruct (Hfrom c x Hin) as (data & Hd & Hx).
  apply ctor_inv in Hx. destruct Hx as (H1 & H2 & H3 & H4).
  pose proof (dict_in_get _ _ _ Hnd Hd) as Hget.
  assert (Hwrite : forall k v, dict_get k data = Some v ->
            exists f v', In (f, v') row /\ In (c, k, v) (writes keys (f, v'))).
  { intros k v Hk. assert (Hsub : sub cols c k = Some v) by (unfold sub; now rewrite Hget).
    apply apply_writes_from in Hsub. destruct Hsub as [Hsub|Hsub]; [|discriminate].
    apply in_flat_map in Hsub. destruct Hsub as ([f v'] & Hrow & Hw). eauto. }
  destruct (Hwrite _ _ H1) as (f1 & v1 & Hr1 & Hw1).
  destruct (Hwrite _ _ H2) as (f2 & v2 & Hr2 & Hw2).
  destruct (Hwrite _ _ H3) as (f3 & v3 & Hr3 & Hw3).
  destruct (Hwrite _ _ H4) as (f4 & v4 & Hr4 & Hw4).
  apply writes_form in Hw1, Hw2, Hw3, Hw4.
  destruct Hw1 as (_ & [(? & _)|[(_ & _ & He1 & Hc1 & <-)|[(? & _)|(? & _)]]]);
    try discriminate.
  destruct Hw2 as (_ & [(? & _)|[(? & _)|[(_ & _ & He2 & Hc2 & <-)|(? & _)]]]);
    try discriminate.
  destruct Hw3 as (_ & [(_ & Hs3 & Hc3 & Hv3)|[(? & _)|[(? & _)|(? & _)]]]);
    try discriminate.
  destruct Hw4 as (_ & [(? & _)|[(? & _)|[(? & _)|(_ & Hv4)]]]); try discriminate.
  injection Hv3 as Hv3. injection Hv4 as Hv4.
  split; [exact Hv4|]. split; [eauto|]. split; [eauto|]. exists f3, v3. auto.
Qed.

Lemma jsonify_diff_sound_witness :
  exists out, _jsonify_diff id_name_row ["id"] = Ok out /\ NoDup (map fst out).
Proof.
  eexists. split; [reflexivity|].
  exact (proj1 (jsonify_diff_sound id_name_row ["id"] _ eq_refl)).
Defined.

(** X15. A column without a diff flag is an error: if the row has a field
    ending in ['_a'] (no flag, no [is_diff_] field) and no [is_diff_] field
    of the row decodes to the same column, the reshaper raises [TypeError]
    instead of returning a value without [isDiff]. *)
Theorem missing_is_diff_raises row keys f v :
  In (f, v) row ->
  is_flag f = false ->
  startswith "is_diff_" f = false ->
  endswith "_a" f = true ->
  (forall g w, In (g, w) row -> startswith "is_diff_" g = true ->
               replace "is_diff_" "" g <> replace "_a" "" f) ->
  _jsonify_diff row keys = Raise TypeError.
Proof.
  intros Hin Hflag Hd Ha Hno.
  apply (incomplete_raises keys row (replace "_a" "" f) "table1" v "isDiff").
  - apply in_flat_map. exists (f, v). split; [exact Hin|].
    unfold writes. rewrite Hflag, Hd, Ha. now left.
  - right; right; now left.
  - intros v' Hw. apply in_flat_map in Hw. destruct Hw as ([g w] & Hg & Hw).
    apply writes_form in Hw.
    destruct Hw as (_ & [(_ & Hs & Hc & _)|[(? & _)|[(? & _)|(? & _)]]]); try discriminate.
    exact (Hno g w Hg Hs (eq_sym Hc)).
Qed.

Lemma missing_is_diff_raises_witness :
  _jsonify_diff
    [("is_exclusive_a", VBool false); ("is_exclusive_b", VBool false);
     ("id_a", VInt 1); ("id_b", VInt 1)] ["id"] = Raise TypeError.
Proof.
  apply (missing_is_diff_raises _ _ "id_a" (VInt 1)); try reflexivity.
  - cbn. tauto.
  - intros g w Hin Hs. cbn in Hin.
    destruct Hin as [[= <- <-]|[[= <- <-]|[[= <- <-]|[[= <- <-]|[]]]]]; discriminate.
Defined.

(** X16. The exclusivity flags play no part in the matched reshaping:
    dropping them from the row gives the same result. *)
Theorem jsonify_diff_ignores_flags row keys :
  _jsonify_diff (filter (fun fv => negb (is_flag (fst fv))) row) keys
  = _jsonify_diff row keys.
Proof.
  unfold _jsonify_diff. rewrite !loop_writes. f_equal. f_equal.
  induction row as [|[f v] row IH]; [reflexivity|].
  cbn [filter fst flat_map]. destruct (is_flag f) eqn:E; cbn [negb].
  - now rewrite (writes_flag keys f v E), IH.
  - cbn [flat_map]. now rewrite IH.
Qed.

(** X17. Field names of a plain column decode to the column: for a name
    without ['_a'], ['_b'], ['is_diff_'] that is neither [is_diff] nor
    [is_exclusive], the loop body of the matched reshaper stores the value
    of [c_a] under [c]'s [table1], that of [c_b] under its [table2], the
    truthiness of [is_diff_c] under its [isDiff], and with the first two
    the key membership of [c] under [isPK]. *)
Theorem plain_fields_decode keys c v columns :
  plain_column c = true ->
  _jsonify_diff_body keys columns ((c ++ "_a")%string, v)
    = set_sub c "isPK" (VBool (mem c keys)) (set_sub c "table1" v columns)
  /\ _jsonify_diff_body keys columns ((c ++ "_b")%string, v)
    = set_sub c "isPK" (VBool (mem c keys)) (set_sub c "table2" v columns)
  /\ _jsonify_diff_body keys columns (("is_diff_" ++ c)%string, v)
    = set_sub c "isDiff" (VBool (truthy v)) columns.
Proof.
  intros H. apply plain_exact in H.
  rewrite !body_writes, (writes_a keys c H), (writes_b keys c H), (writes_diff keys c H).
  repeat split.
Qed.

Lemma plain_fields_decode_witness :
  _jsonify_diff_body ["id"] [] ("name_a", VStr "x")
  = set_sub "name" "isPK" (VBool (mem "name" ["id"])) (set_sub "name" "table1" (VStr "x") []).
Proof.
  exact (proj1 (plain_fields_decode ["id"] "name" (VStr "x") [] eq_refl)).
Defined.

(** ** Exclusive rows over plain columns *)

Lemma side_values_keys sfx fields : forall acc c,
  In c (map fst (side_values sfx fields acc))
  <-> In c (map fst acc) \/ exists f v, In (f, v) fields /\ c = replace sfx "" f.
Proof.
  unfold side_values. induction fields as [|[f v] fields IH]; intros acc c.
  - cbn. split; [now left|]. intros [H|(f & v & [] & _)]. exact H.
  - cbn [fold_left fst snd]. rewrite IH, dict_set_keys. split.
    + intros [[->|H]|(f' & v' & Hin & Hc)].
      * right. exists f, v. split; [now left|reflexivity].
      * now left.
      * right. exists f', v'. split; [now right|exact Hc].
    + intros [H|(f' & v' & [[= <- <-]|Hin] & Hc)].
      * left. now right.
      * left. now left.
      * right. eauto.
Qed.

Lemma side_values_nodup sfx fields : forall acc,
  NoDup (map fst acc) -> NoDup (map fst (side_values sfx fields acc)).
Proof.
  unfold side_values. induction fields as [|[f v] fields IH]; intros acc H; [exact H|].
  cbn [fold_left fst snd]. apply IH. now apply dict_set_nodup.
Qed.

Section ExclusiveCovering.

Variable keys : list string.
Variable row : dict value.
Variable cs : list string.
Hypothesis Hexact : forall c, In c cs -> exact_column c = true.
Hypothesis Hcovers : covers row cs.

(** The side fields of the row are the fields [c_a] of its columns. *)
Lemma side_a_fields f :
  In f (map fst row) -> side_field "_a" f = true ->
  exists c, In c cs /\ f = (c ++ "_a")%string /\ replace "_a" "" f = c.
Proof.
  destruct Hcovers as (_ & Hfields & _). intros Hin Hside.
  unfold side_field in Hside. apply andb_true_iff in Hside as [Hside He].
  apply andb_true_iff in Hside as [Hfl Hd]. apply negb_true_iff in Hfl, Hd.
  destruct (Hfields f Hin) as [Hflag|(c & Hc & Hf)]; [congruence|].
  destruct (exact_parts c (Hexact c Hc)) as (_ & _ & _ & _ & H5 & _).
  destruct Hf as [<-|[<-|[<-|[]]]].
  - exists c. auto.
  - rewrite (endswith_other "_b" "_a") in He; [discriminate|reflexivity|discriminate].
  - discriminate.
Qed.

Lemma side_a_of_column c :
  In c cs -> side_field "_a" (c ++ "_a") = true /\ replace "_a" "" (c ++ "_a") = c.
Proof.
  intros Hc. destruct (exact_parts c (Hexact c Hc)) as (H1 & _ & H3 & _ & H5 & _).
  unfold side_field. now rewrite H1, H3, endswith_app.
Qed.

Lemma table1_projection :
  NoDup (map fst (side_projection "_a" keys row))
  /\ (forall c, In c (map fst (side_projection "_a" keys row)) <-> In c cs)
  /\ forall c x, In (c, x) (side_projection "_a" keys row) ->
       ex_isPK x = mem c keys
       /\ dict_get (c ++ "_a")%string row = Some (ex_value x).
Proof.
  destruct Hcovers as (Hnd & Hfields & Hcover).
  unfold side_projection. rewrite map_map. cbn [fst].
  split; [apply side_values_nodup; constructor|]. split.
  - intros c. rewrite side_values_keys. split.
    + intros [[]|(f & v & Hin & ->)]. apply filter_In in Hin. destruct Hin as [Hin Hside].
      cbn [fst] in Hside.
      destruct (side_a_fields f) as (c & Hc & _ & ->); auto.
      change f with (fst (f, v)). now apply in_map.
    + intros Hc. right.
      specialize (Hcover c (c ++ "_a")%string Hc (or_introl eq_refl)).
      apply in_map_iff in Hcover. destruct Hcover as ([f v] & Hf & Hin). cbn [fst] in Hf.
      subst f. destruct (side_a_of_column c Hc) as (Hside & Hrep).
      exists (c ++ "_a")%string, v. split; [|now rewrite Hrep].
      apply filter_In. now split.
  - intros c x Hin. apply side_projection_from in Hin.
    destruct Hin as (Hpk & f & Hf & Hside & ->). split; [exact Hpk|].
    destruct (side_a_fields f) as (c & Hc & -> & ->); auto.
    + change f with (fst (f, ex_value x)). now apply in_map.
    + now apply dict_in_get.
Qed.

End ExclusiveCovering.

(** X18. Exclusive reshaping is complete on plain columns: for a row that
    exists only in table1 ([is_exclusive_a] truthy, [is_exclusive_b] falsy)
    and whose fields cover the columns [cs], all of them plain names, the
    reshaper returns a mapping whose keys are exactly [cs]; each column is
    mapped to the value of its [_a] field and to its key membership. *)
Theorem exclusive_row_complete keys row cs :
  (forall c, In c cs -> plain_column c = true) ->
  covers row cs ->
  has_flags row = true ->
  is_t1_exclusive row = true ->
  flag "is_exclusive_b" row = false ->
  exists out,
    _jsonify_exclusive row keys = Ok out
    /\ NoDup (map fst out)
    /\ (forall c, In c (map fst out) <-> In c cs)
    /\ forall c x, In (c, x) out ->
         ex_isPK x = mem c keys /\ dict_get (c ++ "_a")%string row = Some (ex_value x).
Proof.
  intros Hplain Hcov Hflags H1 Hb.
  assert (Hexact : forall c, In c cs -> exact_column c = true)
    by (intros c Hc; apply plain_exact; auto).
  exists (side_projection "_a" keys row). split.
  - unfold has_flags, is_t1_exclusive, flag in *.
    destruct (dict_get "is_exclusive_a" row) as [va|] eqn:Ea; [|discriminate].
    destruct (dict_get "is_exclusive_b" row) as [vb|] eqn:Eb; [|discriminate].
    apply (exclusive_side keys row va vb Ea Eb). left. auto.
  - exact (table1_projection keys row cs Hexact Hcov).
Qed.

Definition only_in_table1 : dict value :=
  [("is_exclusive_a", VBool true); ("is_exclusive_b", VBool false);
   ("is_diff_id", VBool false); ("is_diff_name", VBool false);
   ("id_a", VInt 1); ("id_b", VNone); ("name_a", VStr "x"); ("name_b", VNone)].

Lemma exclusive_row_complete_witness :
  exists out,
    _jsonify_exclusive only_in_table1 ["id"] = Ok out
    /\ forall c, In c (map fst out) <-> In c ["id"; "name"].
Proof.
  destruct (exclusive_row_complete ["id"] only_in_table1 ["id"; "name"])
    as (out & Hout & _ & Hkeys & _).
  - intros c [<-|[<-|[]]]; reflexivity.
  - covers_concrete.
  - reflexivity.
  - reflexivity.
  - reflexivity.
  - exists out. split; [exact Hout|exact Hkeys].
Defined.

(** X19. [jsonify] returns a document when every row carries both flags,
    every matched row can be reshaped, the stats mapping is well formed if
    a summary is asked for, and the status computation returns. *)
Theorem jsonify_returns_document d dbt_model with_summary with_columns :
  flags_present (info d) (map fst (diff_schema (info d))) = true ->
  (forall r, In r (filter is_matched (wide_rows (info d) (map fst (diff_schema (info d))))) ->
             exists out, _jsonify_diff r (key_columns (fst (tables (info d)))) = Ok out) ->
  (with_summary = false \/ exists s, _jsonify_diff_summary (get_stats_dict d) = Ok s) ->
  (info_diff (info d) <> [] \/ given with_columns = None
   \/ exists cols a r c,
        with_columns = Some cols /\ dict_get "added" cols = Some a
        /\ dict_get "removed" cols = Some r /\ dict_get "changed" cols = Some c) ->
  exists doc, jsonify d dbt_model with_summary with_columns = Ok doc.
Proof.
  intros Hflags Hdiff Hsum Hcols.
  apply (jsonify_returns d dbt_model with_summary with_columns Hflags Hdiff Hsum).
  apply is_different_total.
  destruct Hcols as [Hrows|[H|H]]; [|auto|auto 6].
  pose proof (three_way_length (wide_rows (info d) (map fst (diff_schema (info d))))) as Hlen.
  unfold wide_rows in Hlen at 4. rewrite length_map in Hlen.
  destruct (info_diff (info d)) as [|r rs]; [now destruct Hrows|]. cbn [length] in Hlen.
  destruct (filter is_t1_exclusive _); [|left; discriminate].
  destruct (filter is_t2_exclusive _); [|right; left; discriminate].
  destruct (filter is_matched _); [cbn in Hlen; lia|right; right; left; discriminate].
Qed.

Lemma jsonify_returns_document_witness :
  exists doc, jsonify three_rows "m" false (Some [("removed", ["x"])]) = Ok doc.
Proof.
  apply jsonify_returns_document.
  - reflexivity.
  - intros r Hin. cbn in Hin. destruct Hin as [<-|[]]. eexists. reflexivity.
  - now left.
  - left. discriminate.
Defined.
